(** * WordSpark: the HTTP downloader and the delay engine

    A shallow embedding of [py_src/base/http/downloader.py],
    [py_src/base/http/basic.py], [py_src/base/http/advanced.py] and
    [py_src/base/timer.py], with the properties of the design document
    stated over it.

    Conventions of the embedding:
    - Python [int] is [Z]; Python [float] is an exact rational [Q]
      (rounding is not modelled);
    - [str] is [string], [bytes] is [list byte];
    - the session of the client, the files on disk and the requests put on
      the wire are an explicit state, threaded through a small state and
      exception monad;
    - [while True] is a fuel-bounded recursion, one unit of fuel per
      iteration; running out of fuel is a third outcome, distinct from a
      return and from a raise;
    - the remote server is a parameter [net] of the client: a function
      from the requests seen so far and the next request to what
      [Session.request] gives back;
    - progress bars, prints, logging and [time.sleep] leave no trace in
      the state and are left out. *)

From Stdlib Require Import QArith Qpower Lqa.
From Stdlib Require Import Ascii String.
From Stdlib.Strings Require Import Byte.
From stdpp Require Import base tactics option list gmap strings pretty.

Local Open Scope Z_scope.

(** ** Strings *)

Module Str.

Definition is_upper (c : ascii) : bool :=
  let n := N_of_ascii c in ((65 <=? n) && (n <=? 90))%N.

Definition lower_char (c : ascii) : ascii :=
  if is_upper c then ascii_of_N (N_of_ascii c + 32) else c.

(** [str.lower], on ASCII. *)
Fixpoint lower (s : string) : string :=
  match s with
  | EmptyString => EmptyString
  | String c r => String (lower_char c) (lower r)
  end.

Definition is_digit (c : ascii) : bool :=
  let n := N_of_ascii c in ((48 <=? n) && (n <=? 57))%N.

Definition digit_val (c : ascii) : N := (N_of_ascii c - 48)%N.

(** The characters [str.strip] and [int] treat as blanks, on ASCII:
    space, tab, line feed, vertical tab, form feed, carriage return and
    the four separators 28..31. *)
Definition is_space (c : ascii) : bool :=
  let n := N_of_ascii c in
  ((n =? 32) || ((9 <=? n) && (n <=? 13)) || ((28 <=? n) && (n <=? 31)))%N.

Fixpoint lstrip (s : string) : string :=
  match s with
  | String c r => if is_space c then lstrip r else s
  | EmptyString => EmptyString
  end.

(** [rstrip] keeps a character when it is not blank or when something
    that is kept follows it. *)
Fixpoint rstrip (s : string) : string :=
  match s with
  | EmptyString => EmptyString
  | String c r =>
      match rstrip r with
      | EmptyString => if is_space c then EmptyString else String c EmptyString
      | r' => String c r'
      end
  end.

Definition strip (s : string) : string := rstrip (lstrip s).

(** The digits of a Python integer literal as [int(str)] reads them:
    decimal digits, with single underscores allowed between two digits.
    [prev] tells whether the previous character was a digit. *)
Fixpoint py_digits (acc : N) (prev : bool) (s : string) : option N :=
  match s with
  | EmptyString => if prev then Some acc else None
  | String c r =>
      if is_digit c then py_digits (10 * acc + digit_val c)%N true r
      else if Ascii.eqb c "_" then (if prev then py_digits acc false r else None)
      else None
  end.

(** [int(s)] for a [str] argument, on ASCII: [None] stands for the
    [ValueError] Python raises. *)
Definition py_int (s : string) : option Z :=
  match strip s with
  | String "+" r => Z.of_N <$> py_digits 0 false r
  | String "-" r => (fun n => - Z.of_N n) <$> py_digits 0 false r
  | r => Z.of_N <$> py_digits 0 false r
  end.

End Str.

(** ** Case-insensitive header dictionaries

    [requests.structures.CaseInsensitiveDict]: the store maps the
    lower-cased key to the pair of the key as last written and the value. *)

Module CI.

Abbreviation dict := (gmap string (string * string)).

Definition set (k v : string) (d : dict) : dict := <[Str.lower k := (k, v)]> d.

Definition get (k : string) (d : dict) : option string := snd <$> d !! Str.lower k.

(** [k in d.keys()]: [Mapping.__contains__] goes through [__getitem__],
    which lower-cases the key. *)
Definition contains (k : string) (d : dict) : bool :=
  match d !! Str.lower k with Some _ => true | None => false end.

Definition del (k : string) (d : dict) : dict := delete (Str.lower k) d.

(** The dictionary built from header fields in wire order. *)
Definition of_list (l : list (string * string)) : dict :=
  foldl (fun d kv => set kv.1 kv.2 d) ∅ l.

End CI.

(** ** Outcomes, the client state and its monad *)

(** The exceptions the modelled code can raise. [TypeError] is what
    [with None as response] raises; [RequestException] stands for the
    [requests.exceptions] classes that [req] catches. *)
Inductive exn : Type :=
  | AttributeError
  | ValueError
  | TypeError
  | HTTPError
  | FileNotFoundError
  | AssertionError
  | RequestException.

Inductive outcome (A : Type) : Type :=
  | Returned (a : A)
  | Raised (e : exn)
  | OutOfFuel.
Arguments Returned {A} a.
Arguments Raised {A} e.
Arguments OutOfFuel {A}.

(** [requests.Response], as far as the code reads it. *)
Record Response : Type := mkResponse {
  status_code : Z;
  headers : CI.dict;
  content : list byte
}.

(** A request as put on the wire: the session headers are merged into
    every request the session sends. *)
Record Request : Type := mkRequest {
  req_method : string;
  req_url : string;
  req_headers : CI.dict
}.

(** The remote side: given the requests already sent and the next one,
    the response, or [None] when [Session.request] raises one of the
    exceptions that [HTTPBasic.req] catches. *)
Definition Network : Type := list Request → Request → option Response.

(** What a run of the client can change: the files on disk (path to
    content), the headers of [self._session], and the requests sent. *)
Record state : Type := mkState {
  fs : gmap string (list byte);
  session_headers : CI.dict;
  sent : list Request
}.

Definition M (A : Type) : Type := state → outcome A * state.

Definition ret {A} (a : A) : M A := fun s => (Returned a, s).

Definition raise {A} (e : exn) : M A := fun s => (Raised e, s).

Definition diverge {A} : M A := fun s => (OutOfFuel, s).

Definition bind {A B} (m : M A) (k : A → M B) : M B := fun s =>
  match m s with
  | (Returned a, s') => k a s'
  | (Raised e, s') => (Raised e, s')
  | (OutOfFuel, s') => (OutOfFuel, s')
  end.

Declare Scope py_scope.
Delimit Scope py_scope with py.
Notation "'let*' x ':=' m 'in' k" := (bind m (fun x => k))
  (at level 10, x name, m at level 100, k at level 200) : py_scope.
Notation "m '>>' k" := (bind m (fun _ => k))
  (at level 100, k at level 200, right associativity) : py_scope.
Local Open Scope py_scope.

(** A [str] or a [pathlib.Path] handed in where the signature says
    [Union[Path, str]]. *)
Inductive pathlike : Type :=
  | PathObj (p : string)
  | StrObj (p : string).

Definition fspath (f : pathlike) : string :=
  match f with PathObj p | StrObj p => p end.

(** *** Files *)

Module File.

(** [open(f, "wb")]: create or truncate. *)
Definition open_wb (f : pathlike) : M unit := fun s =>
  (Returned tt, mkState (<[fspath f := []]> (fs s)) (session_headers s) (sent s)).

(** [open(f, "ab+")]: create when missing, keep the content otherwise. *)
Definition open_ab (f : pathlike) : M unit := fun s =>
  match fs s !! fspath f with
  | Some _ => (Returned tt, s)
  | None => (Returned tt, mkState (<[fspath f := []]> (fs s)) (session_headers s) (sent s))
  end.

(** [file.write(chunk); file.flush()] on a handle of [f]: both modes
    used here write at the end of the file. *)
Definition write (f : pathlike) (chunk : list byte) : M unit := fun s =>
  (Returned tt,
   mkState (<[fspath f := default [] (fs s !! fspath f) ++ chunk]> (fs s))
           (session_headers s) (sent s)).

(** [f.stat().st_size]: only a [Path] has [stat]. *)
Definition stat_size (f : pathlike) : M Z := fun s =>
  match f with
  | StrObj _ => (Raised AttributeError, s)
  | PathObj p =>
      match fs s !! p with
      | Some c => (Returned (Z.of_nat (length c)), s)
      | None => (Raised FileNotFoundError, s)
      end
  end.

End File.

(** *** The helpers of [base/io.py] *)

Module IO.

(** Modelled from the spec: [IO.file_del] of [base/io.py], which is not
    among the sources. The design document says of its one use that
    with [resume=false] the destination is first truncated/deleted so
    that [bytesWritten] starts at 0: the file is removed when there. *)
Definition file_del (f : pathlike) : M unit := fun s =>
  (Returned tt, mkState (delete (fspath f) (fs s)) (session_headers s) (sent s)).

(** Modelled from the spec: [IO.dir_create] of [base/io.py], which is
    not among the sources. It makes the parent directory of the
    destination; directories are not part of the file model, so the
    file contents are left as they are. *)
Definition dir_create (f : pathlike) : M unit := ret tt.

End IO.

(** ** [requests.Response] as the code uses it *)

(** [Response.ok], which is also [Response.__bool__]: no 4xx or 5xx. *)
Definition ok (r : Response) : bool :=
  negb ((400 <=? status_code r) && (status_code r <? 600)).

Definition raise_for_status (r : Response) : M unit :=
  if ok r then ret tt else raise HTTPError.

(** [requests.utils.iter_slices], which [iter_content] runs over a body
    that is already read ([stream=False]); [fuel] bounds the [while]. *)
Fixpoint iter_slices_go (fuel : nat) (s : list byte) (n : nat) : list (list byte) :=
  match fuel with
  | O => []
  | S fuel' =>
      match s with
      | [] => []
      | _ => take n s :: iter_slices_go fuel' (drop n s) n
      end
  end.

Definition iter_content (r : Response) (chunk_size : Z) : list (list byte) :=
  let n := if chunk_size <=? 0 then length (content r) else Z.to_nat chunk_size in
  iter_slices_go (length (content r)) (content r) n.

(** ** [HTTPBasic] and [HTTPDownloader] *)

Section Client.

(** The server the client talks to. *)
Variable net : Network.

(** [HTTPBasic.req] with [debug=False] and no [headers], [json] or
    [data] keyword, which is how the downloader calls it:
    [_prepare_headers] then changes nothing, the request goes out with
    the session headers, and a caught exception leaves [None]. *)
Definition req (method url : string) : M (option Response) := fun s =>
  let r := mkRequest method url (session_headers s) in
  (Returned (net (sent s) r),
   mkState (fs s) (session_headers s) (sent s ++ [r])).

Definition get (url : string) : M (option Response) := req "GET" url.

Definition head (url : string) : M (option Response) := req "HEAD" url.

(** [HTTPDownloader._head] *)
Definition _head (file_url : string) : M (option Response) := head file_url.

(** [HTTPDownloader._has_range] *)
Definition _has_range (response : Response) : bool :=
  CI.contains "Accept-Ranges" (headers response).

(** [HTTPDownloader._file_size]: the [try] turns a missing header
    ([KeyError]) and an unreadable value ([ValueError]) into 0, like an
    absent or falsy response. *)
Definition _file_size (response : option Response) : Z :=
  match response with
  | Some r =>
      if ok r then
        match CI.get "content-length" (headers r) with
        | Some v => default 0 (Str.py_int v)
        | None => 0
        end
      else 0
  | None => 0
  end.

(** [with <expr> as response]: [None] has no [__enter__]. *)
Definition with_response {A} (r : option Response) (body : Response → M A) : M A :=
  match r with
  | Some resp => body resp
  | None => raise TypeError
  end.

(** [for chunk in response.iter_content(...): file.write(chunk); file.flush()] *)
Fixpoint write_chunks (file_out : pathlike) (chunks : list (list byte)) : M unit :=
  match chunks with
  | [] => ret tt
  | chunk :: rest => File.write file_out chunk >> write_chunks file_out rest
  end.

(** [HTTPDownloader.download_direct] *)
Definition download_direct
    (file_url : string) (file_out : pathlike) (chunk_size : Z) (debug : bool) : M bool :=
  let* r := get file_url in
  with_response r (fun response =>
    raise_for_status response >>
    let total_size := _file_size (Some response) in
    File.open_wb file_out >>
    write_chunks file_out (iter_content response chunk_size) >>
    let* file_size := File.stat_size file_out in
    ret (file_size >=? total_size)).

(** The value of the [Range] header that [_resume_download] formats. *)
Definition range_value (pos_start pos_end : Z) : string :=
  let _range := "bytes=" +:+ pretty pos_start +:+ "-" in
  if pos_end =? 0 then _range else _range +:+ pretty pos_end.

(** [HTTPDownloader._resume_download]: the header is written into the
    session, where it stays. *)
Definition _resume_download
    (file_url : string) (pos_start pos_end : Z) : M (option Response) :=
  (fun s => (Returned tt,
             mkState (fs s)
                     (CI.set "Range" (range_value pos_start pos_end) (session_headers s))
                     (sent s))) >>
  get file_url.

(** The [while True] of [download_ranges], entered with the file open
    for appending. The counter [index] only feeds the debug prints. *)
Fixpoint ranges_loop (fuel : nat)
    (file_url : string) (file_out : pathlike)
    (chunk_size block_size total_size : Z) : M unit :=
  match fuel with
  | O => diverge
  | S fuel' =>
      let* file_size := File.stat_size file_out in
      if file_size >=? total_size then ret tt
      else
        let pos_end := Z.min (file_size + block_size) total_size in
        let* r := _resume_download file_url file_size pos_end in
        with_response r (fun response =>
          raise_for_status response >>
          write_chunks file_out (iter_content response chunk_size)) >>
        if pos_end >=? total_size then ret tt
        else ranges_loop fuel' file_url file_out chunk_size block_size total_size
  end.

(** [HTTPDownloader.download_ranges] *)
Definition download_ranges (fuel : nat)
    (file_url : string) (file_out : pathlike)
    (chunk_size block_size : Z) (resume debug : bool) : M bool :=
  (if resume then ret tt else IO.file_del file_out) >>
  let* probe := _head file_url in
  let total_size := _file_size probe in
  if total_size =? 0 then
    (if debug then raise ValueError else ret false)
  else
    File.open_ab file_out >>
    ranges_loop fuel file_url file_out chunk_size block_size total_size >>
    let* file_size := File.stat_size file_out in
    ret (file_size >=? total_size).

(** [HTTPDownloader.download], which leaves [chunk_size], [block_size]
    and [resume] of the two strategies at their defaults. *)
Definition download (fuel : nat)
    (file_url : string) (file_out : pathlike) (debug : bool) : M bool :=
  IO.dir_create file_out >>
  let* response := _head file_url in
  match response with
  | None => ret false
  | Some resp =>
      let total_size := _file_size (Some resp) in
      if total_size =? 0 then
        (if debug then raise ValueError else ret false)
      else if _has_range resp then
        download_ranges fuel file_url file_out 1024 (1024 * 1024) false debug
      else
        download_direct file_url file_out 1024 debug
  end.

(** *** Names for the states a ranged download goes through *)

(** The metadata request sent from state [s], and its answer. *)
Definition probe_request (url : string) (s : state) : Request :=
  mkRequest "HEAD" url (session_headers s).

Definition probe (url : string) (s : state) : option Response :=
  net (sent s) (probe_request url s).

End Client.

(** The request a ranged fetch sends from state [s]. *)
Definition range_request (url : string) (pos_start pos_end : Z) (s : state) : Request :=
  mkRequest "GET" url (CI.set "Range" (range_value pos_start pos_end) (session_headers s)).

(** The state once that request is out. *)
Definition after_request (url : string) (pos_start pos_end : Z) (s : state) : state :=
  mkState (fs s)
          (CI.set "Range" (range_value pos_start pos_end) (session_headers s))
          (sent s ++ [range_request url pos_start pos_end s]).

(** The state once the body [body] of the answer is in the file at [p],
    which held [c]. *)
Definition after_append (url : string) (p : string) (c body : list byte)
    (pos_start pos_end : Z) (s : state) : state :=
  mkState (<[p := c ++ body]> (fs s))
          (CI.set "Range" (range_value pos_start pos_end) (session_headers s))
          (sent s ++ [range_request url pos_start pos_end s]).

(** The files when the loop is entered: the destination removed unless
    resuming, then created empty when missing. *)
Definition files_at_entry (f : pathlike) (resume : bool) (s : state)
    : gmap string (list byte) :=
  let files := if resume then fs s else delete (fspath f) (fs s) in
  match files !! fspath f with
  | Some _ => files
  | None => <[fspath f := []]> files
  end.

(** The content the destination has when the loop is entered. *)
Definition content_at_entry (f : pathlike) (resume : bool) (s : state) : list byte :=
  if resume then default [] (fs s !! fspath f) else [].

(** The state when [download_ranges] returns for want of a size. *)
Definition state_at_probe (url : string) (f : pathlike) (resume : bool) (s : state) : state :=
  mkState (if resume then fs s else delete (fspath f) (fs s))
          (session_headers s) (sent s ++ [probe_request url s]).

(** The state when the loop is entered. *)
Definition state_at_entry (url : string) (f : pathlike) (resume : bool) (s : state) : state :=
  mkState (files_at_entry f resume s) (session_headers s) (sent s ++ [probe_request url s]).

(** The [Range] values of the requests sent, oldest first. *)
Definition ranges_sent (s : state) : list (option string) :=
  (fun r => CI.get "Range" (req_headers r)) <$> sent s.

(** [HTTPBasic.__init__], as far as the session goes: a new session with
    the [User-Agent] header when one is given. The headers that
    [requests] itself puts into a new session are left out. *)
Definition HTTPBasic_init (user_agent : string) : state :=
  mkState ∅ (if bool_decide (user_agent = "") then ∅ else CI.set "User-Agent" user_agent ∅) [].

(** ** An origin server that honours byte ranges

    The downloader is verified against every [net]; to run it, and to
    say what a [Range] header asks for, this is a server that holds one
    resource and answers as RFC 9110 (section 14) prescribes: in
    [bytes=first-last] both positions are inclusive, a [last] beyond the
    end is cut to the last byte, a range with [last < first] is invalid
    and the header is ignored, a [first] beyond the end is answered with
    416, and only GET handles ranges. *)

Module Origin.

Fixpoint read_digits (acc : N) (s : string) : N * string :=
  match s with
  | String c r =>
      if Str.is_digit c then read_digits (10 * acc + Str.digit_val c)%N r
      else (acc, s)
  | EmptyString => (acc, EmptyString)
  end.

(** A non-empty run of digits at the head of [s], and what follows. *)
Definition read_nat (s : string) : option (N * string) :=
  match s with
  | String c _ => if Str.is_digit c then Some (read_digits 0 s) else None
  | EmptyString => None
  end.

Fixpoint strip_prefix (p s : string) : option string :=
  match p with
  | EmptyString => Some s
  | String a p' =>
      match s with
      | String b s' => if Ascii.eqb a b then strip_prefix p' s' else None
      | EmptyString => None
      end
  end.

(** [bytes=first-] or [bytes=first-last]. *)
Definition parse_range (v : string) : option (Z * option Z) :=
  rest ← strip_prefix "bytes=" v;
  '(a, rest) ← read_nat rest;
  match rest with
  | String "-" EmptyString => Some (Z.of_N a, None)
  | String "-" r =>
      '(b, r') ← read_nat r;
      match r' with
      | EmptyString => Some (Z.of_N a, Some (Z.of_N b))
      | _ => None
      end
  | _ => None
  end.

(** The bytes at positions [first] to [last], both included. *)
Definition slice (resource : list byte) (first last : Z) : list byte :=
  take (Z.to_nat (last + 1 - first)) (drop (Z.to_nat first) resource).

Definition reply (status : Z) (len : Z) (body : list byte) : Response :=
  mkResponse status
    (CI.of_list [("Content-Length", pretty len); ("Accept-Ranges", "bytes")])
    body.

Definition serve (resource : list byte) : Network := fun _ rq =>
  let n := Z.of_nat (length resource) in
  if String.eqb (req_method rq) "HEAD" then Some (reply 200 n [])
  else
    match CI.get "Range" (req_headers rq) ≫= parse_range with
    | Some (first, olast) =>
        if bool_decide (default first olast < first) then Some (reply 200 n resource)
        else if n <=? first then Some (reply 416 0 [])
        else
          let last := Z.min (default (n - 1) olast) (n - 1) in
          Some (reply 206 (last + 1 - first) (slice resource first last))
    | None => Some (reply 200 n resource)
    end.

(** The ranges [first-last] that the loop of [download_ranges] asks this
    server for, from a file of [k] bytes, and whether the loop is left
    within [fuel] turns: an answered range [k-e] leaves [e + 1] bytes in
    the file. *)
Fixpoint trace (fuel : nat) (block total k : Z) : list (Z * Z) * bool :=
  match fuel with
  | O => ([], false)
  | S fuel' =>
      if k >=? total then ([], true)
      else
        let e := Z.min (k + block) total in
        if e >=? total then ([(k, e)], true)
        else
          let '(ws, b) := trace fuel' block total (e + 1) in
          ((k, e) :: ws, b)
  end.

End Origin.

(** ** Servers that send no bytes *)

(** Every GET is answered, with a success status and an empty body. *)
Definition empty_bodies (net : Network) : Prop :=
  ∀ hist rq, req_method rq = "GET" →
    ∃ resp, net hist rq = Some resp ∧ ok resp = true ∧ content resp = [].

(** A server that reports a resource of [n] bytes and then sends none. *)
Module Stalled.

Definition serve (n : Z) : Network := fun _ rq =>
  if String.eqb (req_method rq) "HEAD" then Some (Origin.reply 200 n [])
  else Some (mkResponse 206 ∅ []).

End Stalled.

(** ** [Delayer] of [base/timer.py]

    A pause is an exact rational. [random.uniform(a, b)] computes
    [a + (b - a) * random()]; the draw [u] of [random()] is an argument.
    Whether the pause is slept ([debug]) does not change the value. *)

Module Delayer.

Local Open Scope Q_scope.


(** [Delayer.between] *)
Definition between (min max : Q) (u : Q) : Q := min + (max - min) * u.

(** [assert 0 < percentage < 1] *)
Definition valid_percentage (percentage : Q) : bool :=
  negb (Qle_bool percentage 0) && negb (Qle_bool 1 percentage).


(** [Delayer.more_than] *)
Definition more_than (base percentage u : Q) : outcome Q :=
  if valid_percentage percentage
  then Returned (between base (base + base * percentage) u)
  else Raised AssertionError.


(** The exponent that [backoff] computes; [2**errors] is a fraction for
    a negative [errors]. *)
Definition exponent (factor errors : Z) : Q :=
  let factor := Z.max factor 2 in
  if (errors =? 0)%Z then inject_Z factor else inject_Z factor * 2 ^ errors.

(** [Delayer.backoff] *)
Definition backoff (base : Q) (factor errors : Z) (percentage u : Q) : outcome Q :=
  more_than (base * exponent factor errors) percentage u.

End Delayer.

(** ** [MemoryCache] of [base/cache.py] *)

Module MemoryCache.

(** Modelled from the spec: [MemoryCache] of [base/cache.py], which is
    not among the sources. The design document calls it the ErrorWindow:
    [Add(key)] records one failure now, as a record of a timestamp and a
    key appended to the window; [Size()] is the count of the entries
    whose age is below the retention period, 3600 s by default. *)
Record t : Type := mk {
  seconds : Z;
  entries : list (Z * string)
}.

(** Modelled from the spec: the constructor [MemoryCache(seconds=...)],
    not among the sources; a window without records. *)
Definition new (seconds : Z) : t := mk seconds [].

(** Modelled from the spec: [MemoryCache.add], not among the sources;
    [Add(key)] records one failure at the time [now] of the call. *)
Definition add (now : Z) (key : string) (c : t) : t :=
  mk (seconds c) (entries c ++ [(now, key)]).

(** Modelled from the spec: [MemoryCache.size], not among the sources;
    [Size()] counts the entries whose age at time [now] is below the
    retention period. *)
Definition size (now : Z) (c : t) : Z :=
  Z.of_nat (length (filter (fun e => now - e.1 < seconds c) (entries c))).

End MemoryCache.

(** ** [HTTPClient] of [base/http/advanced.py] *)

Module HTTPClient.

(** The client: the session it inherits from [HTTPBasic], the index of
    its [Debugger] when it has one, the request and response last saved
    for the debugger, whether a [Delayer] is loaded, and the error
    window. *)
Record t : Type := mk {
  session : state;
  _debugger : option nat;
  _data : option (Request * option Response);
  _delayer : bool;
  _errors : option MemoryCache.t
}.

(** [HTTPClient.__init__] *)
Definition init (user_agent : string) (debugger : option nat) (use_delay : bool) : t :=
  mk (HTTPBasic_init user_agent) debugger None use_delay
     (if use_delay then Some (MemoryCache.new 3600) else None).

(** [Debugger.save]: one more file, one more index. *)
Definition debugger_save (d : option nat) : option nat := S <$> d.

(** [HTTPClient.req] at time [now], without [headers], [json] or [data]
    keywords. *)
Definition req (net : Network) (now : Z) (method url : string) (debug : bool) (c : t)
    : outcome (option Response) * t :=
  if debug && negb (bool_decide (is_Some (_debugger c))) then (Raised AssertionError, c)
  else
    let rq := mkRequest method url (session_headers (session c)) in
    let wire := mkState (fs (session c)) (session_headers (session c))
                        (sent (session c) ++ [rq]) in
    let data0 := if debug then Some (rq, None) else None in
    match net (sent (session c)) rq with
    | Some response =>
        let data1 := if debug then Some (rq, Some response) else data0 in
        let dbg := if debug then debugger_save (_debugger c) else _debugger c in
        let errors := MemoryCache.add now "error" <$> _errors c in
        (Returned (Some response), mk wire dbg data1 (_delayer c) errors)
    | None =>
        if debug
        then (Raised RequestException,
              mk wire (debugger_save (_debugger c)) data0 (_delayer c) (_errors c))
        else (Returned None, mk wire (_debugger c) data0 (_delayer c) (_errors c))
    end.

(** [HTTPClient.get] *)
Definition get (net : Network) (now : Z) (url : string) (debug : bool) (c : t)
    : outcome (option Response) * t :=
  req net now "GET" url debug c.

(** [HTTPClient._is_limited] *)
Definition _is_limited (response : option Response) : bool :=
  match response with
  | Some r => status_code r =? 429
  | None => false
  end.

(** [HTTPClient._delay] *)
Definition _delay (retry_after : Q) (u : Q) (c : t) : outcome Q * t :=
  (Delayer.more_than retry_after (5 # 100) u,
   mk (session c) (_debugger c) (_data c) true (_errors c)).


End HTTPClient.

(** ** Data for the trial runs *)

Definition fresh : state := HTTPBasic_init "".

Definition bytes_of (l : list nat) : list byte :=
  (fun n => default x00 (Byte.of_nat n)) <$> l.

(** A resource of ten bytes. *)
Definition ten : list byte := bytes_of [10; 11; 12; 13; 14; 15; 16; 17; 18; 19]%nat.

(** A resource of 5,000,000 bytes. *)
Definition five_million : list byte := replicate (Z.to_nat 5000000) x00.

(** ** Predicates and servers used in the statements *)

(** A request of the ranged-transfer loop: a GET that carries [Range]. *)
Definition is_range_fetch (rq : Request) : Prop :=
  req_method rq = "GET" ∧ is_Some (CI.get "Range" (req_headers rq)).


(** A server whose metadata answer declares a hundred bytes, without
    [Accept-Ranges], and whose answer to a GET declares and brings three. *)
Definition shrinking : Network := fun _ rq =>
  if String.eqb (req_method rq) "HEAD"
  then Some (mkResponse 200 (CI.of_list [("Content-Length", "100")]) [])
  else Some (mkResponse 200 (CI.of_list [("Content-Length", "3")]) (bytes_of [1; 2; 3]%nat)).

(** A destination that already holds the first three of the ten bytes. *)
Definition three_of_ten : state :=
  mkState {[ "f" := take 3 ten ]} ∅ [].

(** The metadata request has no answer, or an answer without a
    [content-length] that [int] can read. *)
Definition size_unknown (r : option Response) : Prop :=
  r = None
  ∨ ∃ resp, r = Some resp
            ∧ (CI.get "content-length" (headers resp) ≫= Str.py_int) = None.

(** A server that cannot be reached. *)
Definition unreachable : Network := fun _ _ => None.

(** A server that answers without a [Content-Length]. *)
Definition lengthless : Network := fun _ _ =>
  Some (mkResponse 200 (CI.of_list [("Accept-Ranges", "bytes")]) []).


(** A server that holds one resource, ignores [Range] and says so. *)
Definition unranged (resource : list byte) : Network := fun _ rq =>
  Some (mkResponse 200
          (CI.of_list [("Content-Length", pretty (Z.of_nat (length resource)));
                       ("Accept-Ranges", "none")])
          (if String.eqb (req_method rq) "HEAD" then [] else resource)).

(** A server that answers every request with 200 and an empty body. *)
Definition all_is_well : Network := fun _ _ => Some (mkResponse 200 ∅ []).

(** ** More of [HTTPDownloader], [HTTPBasic] and [Debugger] *)

(** [HTTPDownloader.download_bytes]: the chunks of the body are written
    one after the other into a new [BytesIO], which is returned. The
    size that [_file_size] reads goes to the progress bar only, and
    [_file_size] raises nothing. *)
Definition download_bytes (net : Network) (file_url : string) (chunk_size : Z)
    : M (list byte) :=
  let* r := get net file_url in
  with_response r (fun response =>
    raise_for_status response >>
    ret (foldl (fun _data chunk => _data ++ chunk) [] (iter_content response chunk_size))).

Module HTTPBasic.

(** [HTTPBasic.header_set] *)
Definition header_set (key : string) (value : option string) : M unit := fun s =>
  match value with
  | Some v =>
      (Returned tt, mkState (fs s) (CI.set key v (session_headers s)) (sent s))
  | None =>
      if CI.contains key (session_headers s)
      then (Returned tt, mkState (fs s) (CI.del key (session_headers s)) (sent s))
      else (Returned tt, s)
  end.

(** [HTTPBasic.header_get] *)
Definition header_get (key : string) (s : state) : string :=
  if negb (bool_decide (key = "")) && CI.contains key (session_headers s) then
    match CI.get key (session_headers s) with
    | Some value => if bool_decide (value = "") then "" else value
    | None => ""
    end
  else "".

(** The keywords of a request that matter here: whether [json] and
    [data] are given, and the [headers] dictionary, in the order of its
    items, a value being [None] or a string. The [timeout] keyword does
    not reach the model of the server and is left out. *)
Record kwargs : Type := mkKwargs {
  kw_json : bool;
  kw_data : bool;
  kw_headers : option (list (string * option string))
}.

Definition no_kwargs : kwargs := mkKwargs false false None.

(** [for key, value in headers.items(): self.header_set(key, value)] *)
Fixpoint set_all (items : list (string * option string)) : M unit :=
  match items with
  | [] => ret tt
  | (key, value) :: rest => header_set key value >> set_all rest
  end.

(** [HTTPBasic._prepare_headers]: [self.h_json] and [self.h_data] are
    defined nowhere in the class or its subclasses, so looking them up
    raises [AttributeError]. *)
Definition _prepare_headers (kw : kwargs) : M unit :=
  if kw_json kw then raise AttributeError
  else if kw_data kw then raise AttributeError
  else
    match kw_headers kw with
    | Some items => set_all items
    | None => ret tt
    end.

(** [HTTPBasic.req]. The headers that go out are the session headers
    merged with the [headers] keyword, a [None] value removing the
    field: after [_prepare_headers] these are the session headers. Only
    the exceptions of [requests] are caught, and re-raised when [debug]. *)
Definition req (net : Network) (method url : string) (debug : bool) (kw : kwargs)
    : M (option Response) :=
  _prepare_headers kw >>
  fun s =>
    let r := mkRequest method url (session_headers s) in
    let s' := mkState (fs s) (session_headers s) (sent s ++ [r]) in
    match net (sent s) r with
    | Some response => (Returned (Some response), s')
    | None => if debug then (Raised RequestException, s') else (Returned None, s')
    end.

(** [HTTPBasic.get] and [HTTPBasic.post] *)
Definition get (net : Network) (url : string) (debug : bool) (kw : kwargs)
    : M (option Response) :=
  req net "GET" url debug kw.

Definition post (net : Network) (url : string) (debug : bool) (kw : kwargs)
    : M (option Response) :=
  req net "POST" url debug kw.

End HTTPBasic.

(** ** [Debugger] of [base/debug.py] *)

Module Debugger.

Record t : Type := mk {
  _name : string;
  _dir : string;
  _seperator : string;
  _length : Z;
  _index : Z
}.

(** [Debugger.__init__], with its two assertions. *)
Definition init (name dir : string) (length : Z) (seperator : string) : outcome t :=
  if bool_decide (name = "") then Raised AssertionError
  else if length <? 3 then Raised AssertionError
  else Returned (mk name dir seperator length 0).

Fixpoint fill (n : nat) (c : ascii) (s : string) : string :=
  match n with
  | O => s
  | S n' => String c (fill n' c s)
  end.

(** [str.rjust] *)
Definition rjust (s : string) (width : Z) (c : ascii) : string :=
  fill (Z.to_nat (width - Z.of_nat (String.length s))) c s.

(** [dir / name] of [pathlib] as text: an absolute [name] stands for
    itself, any other is put behind the directory and a slash. The
    directory is written as [pathlib] prints it and is neither [.] nor
    the root; that [pathlib] drops empty and [.] components of [name] is
    left out. *)
Definition joinpath (dir name : string) : string :=
  match name with
  | String "/" _ => name
  | _ => dir +:+ "/" +:+ name
  end.

(** The name of the debug file, without the directory. *)
Definition file_name (d : t) (extension : string) : string :=
  let suffix := rjust (pretty (_index d)) (_length d) "0" in
  _name d +:+ _seperator d +:+ suffix +:+ "." +:+ extension.

(** [Debugger._gen_filepath] *)
Definition _gen_filepath (d : t) (extension : string) : string :=
  joinpath (_dir d) (file_name d extension).



End Debugger.

(** A server that holds one resource, knows no ranges and does not
    mention them. *)
Definition plain (resource : list byte) : Network := fun _ rq =>
  Some (mkResponse 200
          (CI.of_list [("Content-Length", pretty (Z.of_nat (length resource)))])
          (if String.eqb (req_method rq) "HEAD" then [] else resource)).

(** ** Servers, clients and debuggers of the further properties *)


(** A client with a [User-Agent], and a file next to the destination. *)
Definition furnished : state :=
  mkState {[ "g" := bytes_of [7; 7]%nat ]} (CI.set "User-Agent" "agent" ∅) [].

(** A server that declares a negative length. *)
Definition negative_length : Network := fun _ _ =>
  Some (mkResponse 200 (CI.of_list [("Content-Length", "-5")]) []).


(** The session headers once the items of a [headers] keyword are set. *)
Definition headers_after (items : list (string * option string)) (d : CI.dict) : CI.dict :=
  foldl (fun d kv => (HTTPBasic.header_set kv.1 kv.2 (mkState ∅ d [])).2.(session_headers))
        d items.

(** The debugger [d] with its index at [k]. *)
Definition at_index (d : Debugger.t) (k : Z) : Debugger.t :=
  Debugger.mk (Debugger._name d) (Debugger._dir d) (Debugger._seperator d)
              (Debugger._length d) k.

(** A debugger with a six-digit index. *)
Definition test_debugger : Debugger.t := Debugger.mk "HTTPClient" "debug" "-" 6 0.

(** * Properties *)

(** ** The integer reader on examples *)

Example py_int_plain : Str.py_int "5000000" = Some 5000000.
Proof. reflexivity. Qed.

Example py_int_blank : Str.py_int " 12 " = Some 12.
Proof. reflexivity. Qed.

Example py_int_underscore : Str.py_int "1_000" = Some 1000.
Proof. reflexivity. Qed.

Example py_int_negative : Str.py_int "-5" = Some (-5).
Proof. reflexivity. Qed.

Example py_int_empty : Str.py_int "" = None.
Proof. reflexivity. Qed.

Example py_int_word : Str.py_int "12a" = None.
Proof. reflexivity. Qed.

Example py_int_trailing_underscore : Str.py_int "12_" = None.
Proof. reflexivity. Qed.

(** ** What one call does to the state *)

Lemma iter_slices_go_concat (fuel : nat) (s : list byte) (n : nat) :
  (length s ≤ fuel)%nat → (s ≠ [] → (0 < n)%nat) →
  concat (iter_slices_go fuel s n) = s.
Proof.
  revert s. induction fuel as [|fuel IH]; intros s Hlen Hn.
  - destruct s; [reflexivity | simpl in Hlen; lia].
  - destruct s as [|b t]; [reflexivity|].
    assert (0 < n)%nat as Hpos by (apply Hn; discriminate).
    cbn [iter_slices_go concat]. rewrite IH.
    + apply take_drop.
    + rewrite length_drop. simpl in *. lia.
    + intros _. exact Hpos.
Qed.

(** The chunks that [iter_content] yields are the body, cut up. *)
Lemma iter_content_concat (r : Response) (chunk_size : Z) :
  concat (iter_content r chunk_size) = content r.
Proof.
  unfold iter_content. apply iter_slices_go_concat; [lia|].
  intros Hne. destruct (content r) as [|b t]; [done|].
  destruct (Z.leb_spec chunk_size 0); simpl; lia.
Qed.

Lemma state_eta (s : state) : mkState (fs s) (session_headers s) (sent s) = s.
Proof. by destruct s. Qed.

(** Writing chunks to an existing file appends their concatenation. *)
Lemma write_chunks_spec (f : pathlike) (chunks : list (list byte)) (s : state) (c : list byte) :
  fs s !! fspath f = Some c →
  write_chunks f chunks s =
    (Returned tt,
     mkState (<[fspath f := c ++ concat chunks]> (fs s)) (session_headers s) (sent s)).
Proof.
  revert s c. induction chunks as [|chunk rest IH]; intros s c Hc.
  - cbn [write_chunks concat]. rewrite app_nil_r, insert_id by done.
    by rewrite state_eta.
  - cbn [write_chunks concat]. unfold bind, File.write at 1. rewrite Hc. cbn [default].
    erewrite IH; cbn [fs session_headers sent].
    + by rewrite insert_insert_eq, app_assoc.
    + by rewrite lookup_insert_eq.
Qed.

Lemma files_at_entry_lookup (f : pathlike) (resume : bool) (s : state) :
  files_at_entry f resume s !! fspath f = Some (content_at_entry f resume s).
Proof.
  unfold files_at_entry, content_at_entry. destruct resume.
  - destruct (fs s !! fspath f) eqn:E; [done|]. by rewrite lookup_insert_eq.
  - rewrite lookup_delete_eq. by rewrite lookup_insert_eq.
Qed.

Section Unfolding.

Variable net : Network.

(** One turn of the loop, spelled out on the state. *)
Lemma ranges_loop_unfold (fuel : nat) (url p : string) (chunk block total : Z)
    (s : state) (c : list byte) :
  fs s !! p = Some c →
  ranges_loop net (S fuel) url (PathObj p) chunk block total s =
    let k := Z.of_nat (length c) in
    if k >=? total then (Returned tt, s)
    else
      let e := Z.min (k + block) total in
      match net (sent s) (range_request url k e s) with
      | None => (Raised TypeError, after_request url k e s)
      | Some resp =>
          if ok resp then
            if e >=? total then (Returned tt, after_append url p c (content resp) k e s)
            else ranges_loop net fuel url (PathObj p) chunk block total
                   (after_append url p c (content resp) k e s)
          else (Raised HTTPError, after_request url k e s)
      end.
Proof.
  intros Hc. cbn [ranges_loop]. unfold bind at 1. unfold File.stat_size at 1.
  rewrite Hc. cbv zeta.
  destruct (Z.of_nat (length c) >=? total) eqn:Hdone; [reflexivity|].
  unfold bind at 1. unfold _resume_download, bind at 1, get, req. cbn [fs session_headers sent].
  fold (range_request url (Z.of_nat (length c))
          (Z.min (Z.of_nat (length c) + block) total) s).
  destruct (net _ _) as [resp|]; [|reflexivity].
  unfold bind at 1, with_response, bind at 1, raise_for_status.
  destruct (ok resp); [|reflexivity].
  unfold ret at 1. erewrite write_chunks_spec by exact Hc.
  cbn [fs session_headers sent fspath]. rewrite iter_content_concat.
  unfold after_append. by destruct (Z.min _ _ >=? total).
Qed.

(** [download_ranges] up to the loop, and after it. *)
Lemma download_ranges_unfold (fuel : nat) (url : string) (f : pathlike)
    (chunk block : Z) (resume debug : bool) (s : state) :
  download_ranges net fuel url f chunk block resume debug s =
    let total := _file_size (probe net url s) in
    if total =? 0 then
      (if debug then Raised ValueError else Returned false, state_at_probe url f resume s)
    else
      match ranges_loop net fuel url f chunk block total (state_at_entry url f resume s) with
      | (Returned _, s') =>
          match File.stat_size f s' with
          | (Returned file_size, s'') => (Returned (file_size >=? total), s'')
          | (Raised e, s'') => (Raised e, s'')
          | (OutOfFuel, s'') => (OutOfFuel, s'')
          end
      | (Raised e, s') => (Raised e, s')
      | (OutOfFuel, s') => (OutOfFuel, s')
      end.
Proof.
  unfold download_ranges, bind, _head, head, req, probe, probe_request,
    state_at_probe, state_at_entry, files_at_entry, IO.file_del, ret.
  destruct resume; cbn [fs session_headers sent];
    (destruct (_file_size _ =? 0); [by destruct debug|]);
    unfold File.open_ab; cbn [fs session_headers sent].
  - destruct (fs s !! fspath f); cbn [fs session_headers sent]; reflexivity.
  - rewrite lookup_delete_eq. reflexivity.
Qed.

(** [download_direct], spelled out on the state. *)
Lemma download_direct_unfold (url : string) (f : pathlike) (chunk : Z) (debug : bool)
    (s : state) :
  download_direct net url f chunk debug s =
    let rq := mkRequest "GET" url (session_headers s) in
    let s1 := mkState (fs s) (session_headers s) (sent s ++ [rq]) in
    match net (sent s) rq with
    | None => (Raised TypeError, s1)
    | Some resp =>
        if ok resp then
          let s2 := mkState (<[fspath f := content resp]> (fs s))
                            (session_headers s) (sent s ++ [rq]) in
          match f with
          | PathObj _ =>
              (Returned (Z.of_nat (length (content resp)) >=? _file_size (Some resp)), s2)
          | StrObj _ => (Raised AttributeError, s2)
          end
        else (Raised HTTPError, s1)
    end.
Proof.
  unfold download_direct, bind at 1, get, req. cbv zeta.
  destruct (net _ _) as [resp|]; [|reflexivity].
  unfold with_response, bind at 1, raise_for_status.
  destruct (ok resp) eqn:Hok; [|reflexivity].
  unfold ret at 1, bind at 1, File.open_wb at 1. cbn [fs session_headers sent].
  unfold bind at 1.
  erewrite write_chunks_spec by (cbn [fs]; apply lookup_insert_eq).
  cbn [fs session_headers sent]. rewrite insert_insert_eq, iter_content_concat, app_nil_l.
  unfold bind, File.stat_size, ret. destruct f as [p|p]; cbn [fs fspath]; [|reflexivity].
  by rewrite lookup_insert_eq.
Qed.

End Unfolding.

(** ** Header dictionaries *)

Lemma CI_get_set (k v : string) (d : CI.dict) : CI.get k (CI.set k v d) = Some v.
Proof. unfold CI.get, CI.set. by rewrite lookup_insert_eq. Qed.

Lemma CI_set_set (k v w : string) (d : CI.dict) : CI.set k w (CI.set k v d) = CI.set k w d.
Proof. unfold CI.set. by rewrite insert_insert_eq. Qed.

(** ** The loop against any server: what it may touch *)

Lemma range_request_is_range_fetch (url : string) (a b : Z) (s : state) :
  is_range_fetch (range_request url a b s).
Proof.
  split; [reflexivity|]. unfold range_request; cbn [req_headers].
  rewrite CI_get_set. by eexists.
Qed.

Section Frame.

Variable net : Network.
Variables (url p : string) (chunk block total : Z).

(** The loop only appends to the destination, leaves the other files
    alone, and sends nothing but ranged fetches. *)
Lemma ranges_loop_frame (fuel : nat) (s : state) (c : list byte) (o : outcome unit) (s' : state) :
  fs s !! p = Some c →
  ranges_loop net fuel url (PathObj p) chunk block total s = (o, s') →
  (∃ extra, fs s' !! p = Some (c ++ extra)) ∧
  (∀ q, q ≠ p → fs s' !! q = fs s !! q) ∧
  (∃ new, sent s' = sent s ++ new ∧ Forall is_range_fetch new).
Proof.
  revert s c. induction fuel as [|fuel IH]; intros s c Hc Hrun.
  - cbn in Hrun. injection Hrun as <- <-.
    split; [exists []; by rewrite app_nil_r|]. split; [done|].
    exists []. by rewrite app_nil_r.
  - rewrite (ranges_loop_unfold _ _ _ _ _ _ _ _ c) in Hrun by exact Hc. cbv zeta in Hrun.
    set (k := Z.of_nat (length c)) in *. set (e := Z.min (k + block) total) in *.
    assert (∀ body, (∃ extra, fs (after_append url p c body k e s) !! p = Some (c ++ extra))
                    ∧ (∀ q, q ≠ p → fs (after_append url p c body k e s) !! q = fs s !! q)
                    ∧ (∃ new, sent (after_append url p c body k e s) = sent s ++ new
                              ∧ Forall is_range_fetch new)) as Happend.
    { intros body. unfold after_append; cbn [fs sent]. split; [|split].
      - exists body. by rewrite lookup_insert_eq.
      - intros q Hq. by rewrite lookup_insert_ne.
      - eexists. split; [reflexivity|].
        constructor; [apply range_request_is_range_fetch | constructor]. }
    assert ((∃ extra, fs (after_request url k e s) !! p = Some (c ++ extra))
            ∧ (∀ q, q ≠ p → fs (after_request url k e s) !! q = fs s !! q)
            ∧ (∃ new, sent (after_request url k e s) = sent s ++ new
                      ∧ Forall is_range_fetch new)) as Hrequest.
    { unfold after_request; cbn [fs sent]. split; [|split].
      - exists []. by rewrite app_nil_r.
      - done.
      - eexists. split; [reflexivity|].
        constructor; [apply range_request_is_range_fetch | constructor]. }
    destruct (k >=? total).
    { injection Hrun as <- <-.
      split; [exists []; by rewrite app_nil_r|]. split; [done|].
      exists []. by rewrite app_nil_r. }
    destruct (net _ _) as [resp|]; [|by injection Hrun as <- <-].
    destruct (ok resp); [|by injection Hrun as <- <-].
    destruct (e >=? total); [injection Hrun as <- <-; apply Happend|].
    destruct (Happend (content resp)) as (_ & Hothers & new & Hsent & Hnew).
    eapply IH in Hrun; [|unfold after_append; cbn [fs]; apply lookup_insert_eq].
    destruct Hrun as ((extra & Hextra) & Hothers' & new' & Hsent' & Hnew').
    split; [|split].
    + exists (content resp ++ extra). by rewrite app_assoc.
    + intros q Hq. rewrite Hothers', Hothers by done. done.
    + exists (new ++ new'). rewrite Hsent', Hsent, app_assoc.
      split; [done | by apply Forall_app].
Qed.

(** With fuel for one turn and a file short of the total, the first
    request the loop sends starts where the file ends. *)
Lemma ranges_loop_first (fuel : nat) (s : state) (c : list byte) (o : outcome unit) (s' : state) :
  fs s !! p = Some c →
  Z.of_nat (length c) < total →
  ranges_loop net (S fuel) url (PathObj p) chunk block total s = (o, s') →
  ∃ rest,
    sent s' = sent s ++
      range_request url (Z.of_nat (length c))
        (Z.min (Z.of_nat (length c) + block) total) s :: rest.
Proof.
  intros Hc Hlt Hrun.
  rewrite (ranges_loop_unfold _ _ _ _ _ _ _ _ c) in Hrun by exact Hc. cbv zeta in Hrun.
  destruct (Z.geb_spec (Z.of_nat (length c)) total); [lia|].
  destruct (net _ _) as [resp|]; [|injection Hrun as <- <-; by exists []].
  destruct (ok resp); [|injection Hrun as <- <-; by exists []].
  destruct (_ >=? total); [injection Hrun as <- <-; by exists []|].
  eapply ranges_loop_frame in Hrun; [|unfold after_append; cbn [fs]; apply lookup_insert_eq].
  destruct Hrun as (_ & _ & new & Hsent & _).
  exists new. rewrite Hsent. unfold after_append; cbn [sent]. by rewrite <- app_assoc.
Qed.

(** A [str] destination stops the loop at its first line. *)
Lemma ranges_loop_str (fuel : nat) (s : state) :
  ranges_loop net (S fuel) url (StrObj p) chunk block total s = (Raised AttributeError, s).
Proof. reflexivity. Qed.

End Frame.

(** ** Range answers that carry no body *)

Lemma Stalled_serve_empty_bodies (n : Z) : empty_bodies (Stalled.serve n).
Proof.
  intros hist rq Hget. unfold Stalled.serve. rewrite Hget.
  eexists. split; [reflexivity|]. split; reflexivity.
Defined.

Section ZeroProgress.

Variable net : Network.
Hypothesis Hnet : empty_bodies net.

Variables (url p : string) (chunk block total : Z).

(** With a block that does not reach the end, nothing ever leaves the
    loop: the size read at the top of each turn is the same. *)
Lemma ranges_loop_stalls (fuel : nat) (s : state) (c : list byte) :
  fs s !! p = Some c →
  Z.of_nat (length c) + block < total →
  Z.of_nat (length c) < total →
  (ranges_loop net fuel url (PathObj p) chunk block total s).1 = OutOfFuel.
Proof.
  revert s. induction fuel as [|fuel IH]; intros s Hc Hblock Hlt; [reflexivity|].
  rewrite (ranges_loop_unfold _ _ _ _ _ _ _ _ c) by exact Hc. cbv zeta.
  destruct (Z.geb_spec (Z.of_nat (length c)) total); [lia|].
  destruct (Hnet (sent s)
              (range_request url (Z.of_nat (length c))
                 (Z.min (Z.of_nat (length c) + block) total) s) eq_refl)
    as (resp & -> & -> & ->).
  destruct (Z.geb_spec (Z.min (Z.of_nat (length c) + block) total) total); [lia|].
  apply IH; unfold after_append; cbn [fs].
  - by rewrite lookup_insert_eq, app_nil_r.
  - lia.
  - lia.
Qed.

(** With a block that reaches the end, the second test of the loop
    leaves it after one request. *)
Lemma ranges_loop_one_shot (fuel : nat) (s : state) (c : list byte) :
  fs s !! p = Some c →
  total ≤ Z.of_nat (length c) + block →
  Z.of_nat (length c) < total →
  ranges_loop net (S fuel) url (PathObj p) chunk block total s =
    (Returned tt, after_append url p c [] (Z.of_nat (length c)) total s).
Proof.
  intros Hc Hblock Hlt.
  rewrite (ranges_loop_unfold _ _ _ _ _ _ _ _ c) by exact Hc. cbv zeta.
  destruct (Z.geb_spec (Z.of_nat (length c)) total); [lia|].
  replace (Z.min (Z.of_nat (length c) + block) total) with total by lia.
  destruct (Hnet (sent s) (range_request url (Z.of_nat (length c)) total s) eq_refl)
    as (resp & -> & -> & ->).
  destruct (Z.geb_spec total total); [reflexivity | lia].
Qed.

Variables (resume debug : bool) (s : state) (c : list byte).
Hypothesis Hsize : _file_size (probe net url s) = total.
Hypothesis Hc : content_at_entry (PathObj p) resume s = c.
Hypothesis Hshort : Z.of_nat (length c) < total.

Lemma download_ranges_stalls (fuel : nat) :
  Z.of_nat (length c) + block < total →
  (download_ranges net fuel url (PathObj p) chunk block resume debug s).1 = OutOfFuel.
Proof.
  intros Hblock. rewrite download_ranges_unfold, Hsize. cbv zeta.
  destruct (Z.eqb_spec total 0); [lia|].
  pose proof (ranges_loop_stalls fuel (state_at_entry url (PathObj p) resume s) c) as Hloop.
  destruct (ranges_loop _ _ _ _ _ _ _ _) as [o s'].
  cbn [fst] in Hloop. rewrite Hloop; [done| |done..].
  unfold state_at_entry; cbn [fs]. rewrite <- Hc. apply (files_at_entry_lookup (PathObj p)).
Qed.

Lemma download_ranges_one_shot (fuel : nat) :
  total ≤ Z.of_nat (length c) + block →
  ∃ s',
    download_ranges net (S fuel) url (PathObj p) chunk block resume debug s
      = (Returned false, s')
    ∧ sent s' = sent s ++
        [probe_request url s; range_request url (Z.of_nat (length c)) total s]
    ∧ fs s' !! p = Some c.
Proof.
  intros Hblock. rewrite download_ranges_unfold, Hsize. cbv zeta.
  destruct (Z.eqb_spec total 0); [lia|].
  rewrite (ranges_loop_one_shot fuel _ c); [|
    unfold state_at_entry; cbn [fs]; rewrite <- Hc;
    apply (files_at_entry_lookup (PathObj p)) | done..].
  unfold File.stat_size, after_append; cbn [fs]. rewrite lookup_insert_eq, app_nil_r.
  eexists. split; [|split].
  - destruct (Z.geb_spec (Z.of_nat (length c)) total); [lia|]. reflexivity.
  - cbn [sent state_at_entry]. by rewrite <- app_assoc.
  - cbn [fs]. apply lookup_insert_eq.
Qed.

End ZeroProgress.

(** C1, as amended. [download_ranges] has no test for a turn without
    progress. When every range answer has an empty body and the file
    holds fewer bytes than the total, the call ends, with [False] after
    one range request and the file as it was, when the first block
    reaches the total (size + block_size >= total); when it does not,
    the call never ends, whatever the number of turns allowed. *)
Theorem zero_progress_ends_iff_one_block
    (net : Network) (url p : string) (chunk block total : Z)
    (resume debug : bool) (s : state) (c : list byte) :
  empty_bodies net →
  _file_size (probe net url s) = total →
  content_at_entry (PathObj p) resume s = c →
  Z.of_nat (length c) < total →
  (total ≤ Z.of_nat (length c) + block →
     ∀ fuel, ∃ s',
       download_ranges net (S fuel) url (PathObj p) chunk block resume debug s
         = (Returned false, s')
       ∧ sent s' = sent s ++
           [probe_request url s; range_request url (Z.of_nat (length c)) total s]
       ∧ fs s' !! p = Some c)
  ∧ (Z.of_nat (length c) + block < total →
     ∀ fuel,
       (download_ranges net fuel url (PathObj p) chunk block resume debug s).1 = OutOfFuel).
Proof.
  intros Hnet Hsize Hc Hshort. split; intros Hblock fuel.
  - by eapply download_ranges_one_shot.
  - by eapply download_ranges_stalls.
Qed.

Lemma zero_progress_ends_iff_one_block_witness :
  (∃ s',
     download_ranges (Stalled.serve 3) 1 "u" (PathObj "f") 1024 4 false false fresh
       = (Returned false, s')
     ∧ sent s' = sent fresh ++ [probe_request "u" fresh; range_request "u" 0 3 fresh]
     ∧ fs s' !! "f" = Some [])
  ∧ (download_ranges (Stalled.serve 3) 7 "u" (PathObj "f") 1024 1 false false fresh).1
    = OutOfFuel.
Proof.
  split.
  - refine (proj1 (zero_progress_ends_iff_one_block (Stalled.serve 3) "u" "f" 1024 4 3
                     false false fresh [] (Stalled_serve_empty_bodies 3) _ _ _) _ 0%nat).
    + vm_compute. reflexivity.
    + reflexivity.
    + vm_compute. reflexivity.
    + vm_compute. discriminate.
  - refine (proj2 (zero_progress_ends_iff_one_block (Stalled.serve 3) "u" "f" 1024 1 3
                     false false fresh [] (Stalled_serve_empty_bodies 3) _ _ _) _ 7%nat).
    + vm_compute. reflexivity.
    + reflexivity.
    + vm_compute. reflexivity.
    + vm_compute. reflexivity.
Defined.

(** C1 as stated fails: a resource of 5,000,000 bytes, the default block
    of 1 MiB, an empty destination and range answers without a body;
    no number of turns lets the call come back. *)
Lemma zero_progress_never_returns :
  ¬ ∃ fuel : nat,
      (download_ranges (Stalled.serve 5000000) fuel "u" (PathObj "f")
         1024 (1024 * 1024) false false fresh).1 ≠ OutOfFuel.
Proof.
  intros (fuel & Hends). apply Hends.
  apply (download_ranges_stalls (Stalled.serve 5000000) (Stalled_serve_empty_bodies _)
           "u" "f" 1024 (1024 * 1024) 5000000 false false fresh []).
  - vm_compute. reflexivity.
  - reflexivity.
  - vm_compute. reflexivity.
  - vm_compute. reflexivity.
Qed.

(** ** Printing a number and reading it back *)

Lemma string_app_cons (x : ascii) (a b : string) : String x a +:+ b = String x (a +:+ b).
Proof. reflexivity. Qed.

Lemma string_app_nil_l (a : string) : "" +:+ a = a.
Proof. reflexivity. Qed.

Lemma string_app_assoc (a b c : string) : (a +:+ b) +:+ c = a +:+ (b +:+ c).
Proof. induction a as [|x a IH]; [reflexivity|]. rewrite !string_app_cons. by f_equal. Qed.

Lemma string_app_nil_r (a : string) : a +:+ "" = a.
Proof. induction a as [|x a IH]; [reflexivity|]. rewrite string_app_cons. by f_equal. Qed.

(** A digit is no blank, no sign and no underscore. *)
Lemma digit_is_plain (c : ascii) :
  Str.is_digit c = true →
  Str.is_space c = false ∧ c ≠ "+"%char ∧ c ≠ "-"%char ∧ Ascii.eqb c "_" = false.
Proof.
  destruct c as [[] [] [] [] [] [] [] []]; vm_compute; intros H;
    try discriminate H; repeat split; discriminate.
Qed.

Lemma pretty_N_char_digit (r : N) :
  (r < 10)%N →
  Str.is_digit (pretty_N_char r) = true ∧ Str.digit_val (pretty_N_char r) = r.
Proof.
  intros Hr.
  assert (r = 0 ∨ r = 1 ∨ r = 2 ∨ r = 3 ∨ r = 4 ∨ r = 5 ∨ r = 6 ∨ r = 7 ∨ r = 8 ∨ r = 9)%N
    as Hcases by lia.
  repeat (destruct Hcases as [->|Hcases]; [by vm_compute|]). subst. by vm_compute.
Qed.

Lemma pretty_N_go_app (x : N) (s t : string) :
  pretty_N_go x s +:+ t = pretty_N_go x (s +:+ t).
Proof.
  revert s. induction (N.lt_wf_0 x) as [x _ IH]; intros s.
  destruct (decide (x = 0)%N) as [->|Hx]; [by rewrite !pretty_N_go_0|].
  rewrite (pretty_N_go_step x s), (pretty_N_go_step x (s +:+ t)) by lia.
  rewrite IH by (apply N.div_lt; lia). reflexivity.
Qed.

(** The digits of a positive number start with a digit. *)
Lemma pretty_N_go_head (x : N) (s : string) :
  (0 < x)%N → ∃ c r, pretty_N_go x s = String c r ∧ Str.is_digit c = true.
Proof.
  revert s. induction (N.lt_wf_0 x) as [x _ IH]; intros s Hx.
  rewrite pretty_N_go_step by done.
  destruct (decide (x `div` 10 = 0)%N) as [->|Hq].
  - rewrite pretty_N_go_0. eexists _, _. split; [reflexivity|].
    apply pretty_N_char_digit, N.mod_lt. lia.
  - apply IH; [apply N.div_lt; lia | by apply N.neq_0_lt_0].
Qed.

Lemma read_digits_pretty_N_go (x : N) (s : string) (acc : N) :
  ∃ m, Origin.read_digits acc (pretty_N_go x s) = Origin.read_digits (acc * m + x)%N s.
Proof.
  revert s acc. induction (N.lt_wf_0 x) as [x _ IH]; intros s acc.
  destruct (decide (x = 0)%N) as [->|Hx].
  { exists 1%N. rewrite pretty_N_go_0. f_equal. lia. }
  rewrite pretty_N_go_step by lia.
  destruct (IH (x `div` 10)%N (N.div_lt x 10 ltac:(lia) ltac:(lia))
              (String (pretty_N_char (x `mod` 10)) s) acc) as [m ->].
  exists (10 * m)%N. cbn [Origin.read_digits].
  destruct (pretty_N_char_digit (x `mod` 10)) as [-> ->]; [apply N.mod_lt; lia|].
  f_equal. pose proof (N.div_mod x 10 ltac:(lia)). lia.
Qed.

Lemma py_digits_pretty_N_go (x : N) (s : string) (acc : N) (prev : bool) :
  (0 < x)%N →
  ∃ m, Str.py_digits acc prev (pretty_N_go x s) = Str.py_digits (acc * m + x)%N true s.
Proof.
  revert s acc prev. induction (N.lt_wf_0 x) as [x _ IH]; intros s acc prev Hx.
  rewrite pretty_N_go_step by lia.
  pose proof (N.div_mod x 10 ltac:(lia)) as Hdm.
  destruct (pretty_N_char_digit (x `mod` 10)) as [Hd Hv]; [apply N.mod_lt; lia|].
  destruct (decide (x `div` 10 = 0)%N) as [Hq|Hq].
  - rewrite Hq, pretty_N_go_0. exists 10%N. cbn [Str.py_digits]. rewrite Hd, Hv.
    f_equal. lia.
  - destruct (IH (x `div` 10)%N (N.div_lt x 10 ltac:(lia) ltac:(lia))
                (String (pretty_N_char (x `mod` 10)) s) acc prev
                (proj1 (N.neq_0_lt_0 _) Hq)) as [m ->].
    exists (10 * m)%N. cbn [Str.py_digits]. rewrite Hd, Hv. f_equal. lia.
Qed.

Lemma rstrip_keep (c : ascii) (s : string) :
  Str.is_space c = false → Str.rstrip s = s → Str.rstrip (String c s) = String c s.
Proof. intros Hc Hs. cbn [Str.rstrip]. rewrite Hs, Hc. by destruct s. Qed.

Lemma rstrip_pretty_N_go (x : N) (s : string) :
  Str.rstrip s = s → Str.rstrip (pretty_N_go x s) = pretty_N_go x s.
Proof.
  revert s. induction (N.lt_wf_0 x) as [x _ IH]; intros s Hs.
  destruct (decide (x = 0)%N) as [->|Hx]; [by rewrite pretty_N_go_0|].
  rewrite pretty_N_go_step by lia. apply IH; [apply N.div_lt; lia|].
  apply rstrip_keep; [|done].
  apply digit_is_plain, pretty_N_char_digit, N.mod_lt. lia.
Qed.

Lemma py_int_digits (c : ascii) (r : string) :
  Str.is_digit c = true → Str.rstrip (String c r) = String c r →
  Str.py_int (String c r) = Z.of_N <$> Str.py_digits 0 false (String c r).
Proof.
  intros Hd Hr. destruct (digit_is_plain c Hd) as (Hsp & Hplus & Hminus & _).
  unfold Str.py_int, Str.strip. cbn [Str.lstrip]. rewrite Hsp, Hr.
  destruct c as [[] [] [] [] [] [] [] []]; try reflexivity; congruence.
Qed.

(** [int(str(n))] is [n], for the sizes a server can report. *)
Lemma py_int_pretty (n : Z) : 0 ≤ n → Str.py_int (pretty n) = Some n.
Proof.
  intros Hn. destruct n as [|q|q]; [reflexivity| |lia].
  change (pretty (Z.pos q)) with (pretty_N_go (N.pos q) "").
  destruct (pretty_N_go_head (N.pos q) "" ltac:(lia)) as (c & r & Hcr & Hd).
  pose proof (rstrip_pretty_N_go (N.pos q) "" eq_refl) as Hstrip.
  pose proof (py_digits_pretty_N_go (N.pos q) "" 0 false ltac:(lia)) as [m Hdigits].
  rewrite Hcr in *. rewrite py_int_digits, Hdigits by done. reflexivity.
Qed.

Lemma pretty_N_nonneg (n : Z) :
  0 ≤ n → pretty n = if decide (n = 0) then "0" else pretty_N_go (Z.to_N n) "".
Proof. destruct n as [|q|q]; [done|done|lia]. Qed.

(** A printed number, followed by something that is no digit, is read
    back whole. *)
Lemma read_nat_pretty (n : Z) (rest : string) :
  0 ≤ n →
  Origin.read_digits (Z.to_N n) rest = (Z.to_N n, rest) →
  Origin.read_nat (pretty n +:+ rest) = Some (Z.to_N n, rest).
Proof.
  intros Hn Hrest. rewrite pretty_N_nonneg by done.
  destruct (decide (n = 0)) as [->|Hne].
  { change (Origin.read_nat ("0" +:+ rest)) with (Some (Origin.read_digits 0 rest)).
    change (Z.to_N 0) with 0%N in Hrest. by rewrite Hrest. }
  rewrite pretty_N_go_app, string_app_nil_l.
  destruct (pretty_N_go_head (Z.to_N n) rest ltac:(lia)) as (c & r & Hcr & Hd).
  destruct (read_digits_pretty_N_go (Z.to_N n) rest 0) as [m Hread].
  unfold Origin.read_nat. rewrite Hcr in *. rewrite Hd, Hread.
  rewrite N.mul_0_l, N.add_0_l. by rewrite Hrest.
Qed.

(** The server reads the header of [_resume_download] as the two
    positions it was made from. *)
Lemma parse_range_value (a b : Z) :
  0 ≤ a → 0 < b → Origin.parse_range (range_value a b) = Some (a, Some b).
Proof.
  intros Ha Hb. unfold range_value. destruct (Z.eqb_spec b 0); [lia|].
  rewrite !string_app_assoc. unfold Origin.parse_range.
  rewrite !string_app_cons, !string_app_nil_l.
  cbn [Origin.strip_prefix Ascii.eqb Bool.eqb mbind option_bind].
  rewrite (read_nat_pretty a) by (done || reflexivity).
  cbn [mbind option_bind].
  rewrite pretty_N_nonneg by lia. destruct (decide (b = 0)); [lia|].
  destruct (pretty_N_go_head (Z.to_N b) "" ltac:(lia)) as (c & r & Hcr & Hd).
  pose proof (read_nat_pretty b "" ltac:(lia) eq_refl) as Hread.
  rewrite pretty_N_nonneg, string_app_nil_r in Hread by lia.
  destruct (decide (b = 0)); [lia|].
  rewrite Hcr in *. rewrite Hread. cbn [mbind option_bind].
  do 2 f_equal; [|f_equal]; lia.
Qed.

(** ** The loop against the origin server *)

Lemma reply_ok (status len : Z) (body : list byte) :
  ok (Origin.reply status len body) = negb ((400 <=? status) && (status <? 600)).
Proof. reflexivity. Qed.

Lemma reply_content_length (status len : Z) (body : list byte) :
  CI.get "content-length" (headers (Origin.reply status len body)) = Some (pretty len).
Proof.
  unfold Origin.reply, CI.of_list, CI.get, CI.set. cbn [headers foldl fst snd].
  change (Str.lower "content-length") with "content-length".
  change (Str.lower "Content-Length") with "content-length".
  change (Str.lower "Accept-Ranges") with "accept-ranges".
  rewrite lookup_insert_ne by discriminate. by rewrite lookup_insert_eq.
Qed.

(** The server reports the length of its resource. *)
Lemma origin_file_size (res : list byte) (hist : list Request) (rq : Request) :
  req_method rq = "HEAD" →
  _file_size (Origin.serve res hist rq) = Z.of_nat (length res).
Proof.
  intros Hm. unfold Origin.serve. rewrite Hm. cbn [String.eqb Ascii.eqb Bool.eqb].
  unfold _file_size. rewrite reply_ok, reply_content_length. cbn [negb andb Z.leb Z.compare].
  rewrite py_int_pretty by lia. reflexivity.
Qed.

(** Its answer to the request the loop sends from a file of [k] bytes. *)
Lemma origin_range (res : list byte) (hist : list Request) (url : string) (k e : Z) (s : state) :
  0 ≤ k < Z.of_nat (length res) → k < e →
  Origin.serve res hist (range_request url k e s) =
    let last := Z.min e (Z.of_nat (length res) - 1) in
    Some (Origin.reply 206 (last + 1 - k) (Origin.slice res k last)).
Proof.
  intros Hk He. unfold Origin.serve, range_request. cbn [req_method req_headers].
  cbn [String.eqb Ascii.eqb Bool.eqb]. rewrite CI_get_set. cbn [mbind option_bind].
  rewrite parse_range_value by lia. cbn [default from_option].
  unfold id. rewrite (bool_decide_eq_false_2 (e < k)) by lia.
  destruct (Z.leb_spec (Z.of_nat (length res)) k); [lia|]. reflexivity.
Qed.

Lemma ranges_sent_after_append (url p : string) (c body : list byte) (k e : Z) (s : state) :
  ranges_sent (after_append url p c body k e s) = ranges_sent s ++ [Some (range_value k e)].
Proof.
  unfold ranges_sent, after_append, range_request. cbn [sent].
  rewrite fmap_app. cbn [fmap list_fmap req_headers]. by rewrite CI_get_set.
Qed.

Section AgainstOrigin.

Variable res : list byte.
Variable n : Z.
Hypothesis Hn : Z.of_nat (length res) = n.

Variables (url p : string) (chunk block : Z).
Hypothesis Hblock : 1 ≤ block.

(** Against the origin server the loop asks for the ranges of
    [Origin.trace] and keeps a prefix of the resource in the file; when
    it is left, the file is the resource. *)
Lemma ranges_loop_origin (fuel : nat) (s : state) (c : list byte) :
  fs s !! p = Some c →
  c = take (length c) res →
  (length c ≤ length res)%nat →
  ∃ s' c',
    ranges_loop (Origin.serve res) fuel url (PathObj p) chunk block n s
      = (if (Origin.trace fuel block n (Z.of_nat (length c))).2
         then Returned tt else OutOfFuel, s')
    ∧ ranges_sent s' = ranges_sent s ++
        ((fun w => Some (range_value w.1 w.2))
           <$> (Origin.trace fuel block n (Z.of_nat (length c))).1)
    ∧ fs s' !! p = Some c'
    ∧ ((Origin.trace fuel block n (Z.of_nat (length c))).2 = true → c' = res).
Proof.
  revert s c. induction fuel as [|fuel IH]; intros s c Hc Hprefix Hlen.
  { exists s, c. cbn. rewrite app_nil_r. by repeat split. }
  rewrite (ranges_loop_unfold _ _ _ _ _ _ _ _ c) by exact Hc. cbv zeta.
  cbn [Origin.trace]. set (k := Z.of_nat (length c)) in *.
  destruct (Z.geb_spec k n) as [Hge|Hlt].
  { exists s, c. cbn [fst snd fmap list_fmap]. rewrite app_nil_r.
    repeat split; [done|]. intros _. rewrite Hprefix. apply take_ge. lia. }
  set (e := Z.min (k + block) n) in *.
  rewrite origin_range by lia. cbv beta iota zeta. rewrite reply_ok. cbn [negb andb Z.leb Z.ltb Z.compare].
  cbn [content Origin.reply].
  destruct (Z.geb_spec e n) as [Hend|Hmore].
  - eexists _, _. cbn [fst snd fmap list_fmap]. split; [reflexivity|].
    split; [apply ranges_sent_after_append|].
    split; [unfold after_append; cbn [fs]; apply lookup_insert_eq|].
    intros _. unfold Origin.slice. rewrite Hprefix at 1.
    replace (Z.to_nat k) with (length c) by lia.
    rewrite take_take_drop. apply take_ge. lia.
  - set (body := Origin.slice res k (Z.min e (Z.of_nat (length res) - 1))).
    assert (c ++ body = take (Z.to_nat (e + 1)) res) as Hfile.
    { unfold body, Origin.slice. rewrite Hprefix at 1.
      replace (Z.to_nat k) with (length c) by lia.
      rewrite take_take_drop. f_equal. lia. }
    assert (length (c ++ body) = Z.to_nat (e + 1)) as Hsize.
    { rewrite Hfile, length_take. lia. }
    destruct (IH (after_append url p c body k e s) (c ++ body)) as (s' & c' & Hrun & Hsent & Hc' & Hres).
    + unfold after_append; cbn [fs]. apply lookup_insert_eq.
    + rewrite Hsize. exact Hfile.
    + lia.
    + replace (Z.of_nat (length (c ++ body))) with (e + 1) in * by lia.
      destruct (Origin.trace fuel block n (e + 1)) as [ws b] eqn:Htrace.
      cbn [fst snd] in *. exists s', c'. split; [exact Hrun|]. split; [|by split].
      rewrite Hsent, ranges_sent_after_append, <- app_assoc. reflexivity.
Qed.

Variables (resume debug : bool) (s : state).
Hypothesis Hfile : content_at_entry (PathObj p) resume s
                   = take (length (content_at_entry (PathObj p) resume s)) res.
Hypothesis Hshort : (length (content_at_entry (PathObj p) resume s) ≤ length res)%nat.
Hypothesis Hres : 0 < n.

(** [download_ranges] against the origin server: it comes back as soon
    as the trace is complete, with [True] and the resource in the file. *)
Lemma download_ranges_origin (fuel : nat) :
  ∃ s',
    download_ranges (Origin.serve res) fuel url (PathObj p) chunk block resume debug s
      = (if (Origin.trace fuel block n
               (Z.of_nat (length (content_at_entry (PathObj p) resume s)))).2
         then Returned true else OutOfFuel, s')
    ∧ ranges_sent s' = ranges_sent s ++ CI.get "Range" (session_headers s) ::
        ((fun w => Some (range_value w.1 w.2))
           <$> (Origin.trace fuel block n
                  (Z.of_nat (length (content_at_entry (PathObj p) resume s)))).1)
    ∧ ((Origin.trace fuel block n
          (Z.of_nat (length (content_at_entry (PathObj p) resume s)))).2 = true →
       fs s' !! p = Some res).
Proof.
  rewrite download_ranges_unfold. unfold probe.
  rewrite origin_file_size by reflexivity. rewrite Hn. cbv zeta.
  destruct (Z.eqb_spec n 0); [lia|].
  destruct (ranges_loop_origin fuel (state_at_entry url (PathObj p) resume s)
              (content_at_entry (PathObj p) resume s))
    as (s' & c' & Hrun & Hsent & Hc' & Hdone); [|done|done|].
  { unfold state_at_entry; cbn [fs]. apply (files_at_entry_lookup (PathObj p)). }
  rewrite Hrun. destruct (Origin.trace _ _ _ _) as [ws b]. cbn [fst snd] in *.
  assert (ranges_sent (state_at_entry url (PathObj p) resume s)
          = ranges_sent s ++ [CI.get "Range" (session_headers s)]) as Hprobe.
  { unfold ranges_sent, state_at_entry, probe_request. cbn [sent].
    by rewrite fmap_app. }
  rewrite Hprobe, <- app_assoc in Hsent.
  destruct b.
  - specialize (Hdone eq_refl). subst c'.
    unfold File.stat_size. rewrite Hc'. exists s'. rewrite Hn.
    destruct (Z.geb_spec n n); [|lia]. by repeat split.
  - exists s'. by repeat split.
Qed.

End AgainstOrigin.

(** ** The byte windows of a ranged download *)

Lemma five_million_length : Z.of_nat (length five_million) = 5000000.
Proof. unfold five_million. rewrite length_replicate. lia. Qed.

(** What the loop puts into the header, turn by turn: the start is the
    size of the file and the end is [min (size + block_size) total]. *)
Lemma ranges_loop_window (net : Network) (fuel : nat) (url p : string)
    (chunk block total : Z) (s : state) (c : list byte) (o : outcome unit) (s' : state) :
  fs s !! p = Some c →
  Z.of_nat (length c) < total →
  ranges_loop net (S fuel) url (PathObj p) chunk block total s = (o, s') →
  ∃ rest,
    ranges_sent s' = ranges_sent s ++
      Some (range_value (Z.of_nat (length c))
              (Z.min (Z.of_nat (length c) + block) total)) :: rest.
Proof.
  intros Hc Hlt Hrun.
  destruct (ranges_loop_first net url p chunk block total fuel s c o s' Hc Hlt Hrun)
    as [rest Hsent].
  exists ((fun r => CI.get "Range" (req_headers r)) <$> rest).
  unfold ranges_sent. rewrite Hsent, fmap_app, fmap_cons.
  unfold range_request; cbn [req_headers]. by rewrite CI_get_set.
Qed.

(** C2, on the code. The header for a file of [size] bytes is
    [bytes=size-end] with [end = min (size + block_size) total], and
    both positions of an HTTP byte range are inclusive: the request
    covers one byte more than the window [[size, end)]. Against a server
    that honours ranges, 5,000,000 bytes come in 5 turns, which start at
    0, 1048577, 2097154, 3145731 and 4194308. *)
Theorem five_million_in_five_closed_ranges :
  ∃ s',
    download_ranges (Origin.serve five_million) 5 "u" (PathObj "f")
      1024 (1024 * 1024) false false fresh = (Returned true, s')
    ∧ ranges_sent s' =
        [None; Some "bytes=0-1048576"; Some "bytes=1048577-2097153";
         Some "bytes=2097154-3145730"; Some "bytes=3145731-4194307";
         Some "bytes=4194308-5000000"]
    ∧ fs s' !! "f" = Some five_million.
Proof.
  pose proof five_million_length as Hlen. remember five_million as res eqn:Hres.
  destruct (download_ranges_origin res 5000000 Hlen "u" "f" 1024 (1024 * 1024)
              ltac:(lia) false false fresh eq_refl ltac:(cbn; lia) ltac:(lia) 5)
    as (s' & Hrun & Hsent & Hfile).
  change (Z.of_nat (length (content_at_entry (PathObj "f") false fresh))) with 0 in *.
  assert (Origin.trace 5 (1024 * 1024) 5000000 0
          = ([(0, 1048576); (1048577, 2097153); (2097154, 3145730);
              (3145731, 4194307); (4194308, 5000000)], true)) as Htrace
    by (vm_compute; reflexivity).
  rewrite Htrace in *. cbn [fst snd] in *.
  exists s'. split; [exact Hrun|]. split; [|by apply Hfile].
  rewrite Hsent. vm_compute. reflexivity.
Qed.

(** The same on ten bytes in blocks of four: two turns, of five bytes
    each, where windows of four bytes would take three. *)
Example ten_in_two_closed_ranges :
  let run := download_ranges (Origin.serve ten) 3 "u" (PathObj "f") 1024 4 false false fresh in
  run.1 = Returned true
  ∧ ranges_sent run.2 = [None; Some "bytes=0-4"; Some "bytes=5-9"]
  ∧ fs run.2 !! "f" = Some ten.
Proof. vm_compute. repeat split; reflexivity. Qed.

(** ** The verdict of a transfer *)

Section Verdict.

Variable net : Network.

(** [download], spelled out: the probe, then the strategy. *)
Lemma download_unfold (fuel : nat) (url : string) (f : pathlike) (debug : bool) (s : state) :
  download net fuel url f debug s =
    let s1 := mkState (fs s) (session_headers s) (sent s ++ [probe_request url s]) in
    match probe net url s with
    | None => (Returned false, s1)
    | Some resp =>
        if _file_size (Some resp) =? 0 then
          (if debug then Raised ValueError else Returned false, s1)
        else if _has_range resp then
          download_ranges net fuel url f 1024 (1024 * 1024) false debug s1
        else download_direct net url f 1024 debug s1
    end.
Proof.
  unfold download, bind at 1, IO.dir_create, ret at 1, bind at 1, _head, head, req, probe,
    probe_request.
  destruct (net _ _) as [resp|]; [|reflexivity].
  destruct (_file_size (Some resp) =? 0); [by destruct debug|].
  by destruct (_has_range resp).
Qed.

(** The loop raises nothing but what the answer of the server brings. *)
Lemma ranges_loop_raises (fuel : nat) (url p : string) (chunk block total : Z)
    (s : state) (c : list byte) (e : exn) (s' : state) :
  fs s !! p = Some c →
  ranges_loop net fuel url (PathObj p) chunk block total s = (Raised e, s') →
  e = TypeError ∨ e = HTTPError.
Proof.
  revert s c. induction fuel as [|fuel IH]; intros s c Hc Hrun; [discriminate|].
  rewrite (ranges_loop_unfold _ _ _ _ _ _ _ _ c) in Hrun by exact Hc. cbv zeta in Hrun.
  destruct (_ >=? total); [discriminate|].
  destruct (net _ _) as [resp|]; [|left; congruence].
  destruct (ok resp); [|right; congruence].
  destruct (_ >=? total); [discriminate|].
  eapply IH; [|exact Hrun]. unfold after_append; cbn [fs]. apply lookup_insert_eq.
Qed.



End Verdict.



(** The size that the probe of [download] found plays no part in the
    verdict of the direct strategy, which reads the size anew from the
    answer to its GET. *)
Example direct_verdict_reads_the_answer_to_the_get :
  let run := download shrinking 3 "u" (PathObj "f") false fresh in
  _file_size (probe shrinking "u" fresh) = 100
  ∧ run.1 = Returned true
  ∧ fs run.2 !! "f" = Some (bytes_of [1; 2; 3]%nat).
Proof. vm_compute. repeat split; reflexivity. Qed.

(** ** Resuming *)

(** C4. With [resume=True] and a destination that holds [k] bytes,
    [0 < k < total], the first range request starts at offset [k]; the
    call only appends, so that the [k] bytes are still the head of the
    file however the call ends, and a [True] verdict means a file of at
    least [total] bytes. With [resume=False] the destination is removed
    first and the first range request starts at offset 0. *)
Theorem resume_continues_at_file_size
    (net : Network) (fuel : nat) (url p : string) (chunk block total : Z) (debug : bool)
    (s : state) (o : outcome bool) (s' : state) :
  _file_size (probe net url s) = total →
  (∀ c,
     fs s !! p = Some c →
     0 < Z.of_nat (length c) < total →
     download_ranges net (S fuel) url (PathObj p) chunk block true debug s = (o, s') →
     (∃ rest,
        sent s' = sent s ++ probe_request url s ::
          range_request url (Z.of_nat (length c))
            (Z.min (Z.of_nat (length c) + block) total) s :: rest)
     ∧ (∃ extra, fs s' !! p = Some (c ++ extra))
     ∧ (o = Returned true → ∃ c', fs s' !! p = Some c' ∧ total ≤ Z.of_nat (length c')))
  ∧ (0 < total →
     download_ranges net (S fuel) url (PathObj p) chunk block false debug s = (o, s') →
     ∃ rest,
       sent s' = sent s ++ probe_request url s ::
         range_request url 0 (Z.min block total) s :: rest).
Proof.
  intros Hsize. split.
  - intros c Hc Hk. rewrite download_ranges_unfold, Hsize. cbv zeta.
    destruct (Z.eqb_spec total 0); [lia|].
    assert (fs (state_at_entry url (PathObj p) true s) !! p = Some c) as Hentry.
    { unfold state_at_entry; cbn [fs]. rewrite (files_at_entry_lookup (PathObj p)).
      unfold content_at_entry; cbn [fspath]. by rewrite Hc. }
    destruct (ranges_loop _ _ _ _ _ _ _ _) as [o1 s1] eqn:Hloop.
    destruct (ranges_loop_first net url p chunk block total fuel _ c o1 s1 Hentry
                ltac:(lia) Hloop) as [rest Hsent].
    destruct (ranges_loop_frame net url p chunk block total (S fuel) _ c o1 s1 Hentry Hloop)
      as ((extra & Hfile) & _).
    cbn [state_at_entry sent] in Hsent. rewrite <- app_assoc in Hsent.
    unfold File.stat_size. rewrite Hfile.
    destruct o1 as [[]|e|]; intros [= <- <-]; (split; [by exists rest|]);
      (split; [by exists extra|]); intros [= Hb].
    exists (c ++ extra). split; [done|].
    destruct (Z.geb_spec (Z.of_nat (length (c ++ extra))) total); [lia|done].
  - intros Htotal. rewrite download_ranges_unfold, Hsize. cbv zeta.
    destruct (Z.eqb_spec total 0); [lia|].
    assert (fs (state_at_entry url (PathObj p) false s) !! p = Some []) as Hentry.
    { unfold state_at_entry; cbn [fs]. by rewrite (files_at_entry_lookup (PathObj p)). }
    destruct (ranges_loop _ _ _ _ _ _ _ _) as [o1 s1] eqn:Hloop.
    destruct (ranges_loop_first net url p chunk block total fuel _ [] o1 s1 Hentry
                ltac:(cbn; lia) Hloop) as [rest Hsent].
    destruct (ranges_loop_frame net url p chunk block total (S fuel) _ [] o1 s1 Hentry Hloop)
      as ((extra & Hfile) & _).
    cbn [state_at_entry sent] in Hsent. rewrite <- app_assoc in Hsent.
    unfold File.stat_size. rewrite Hfile.
    destruct o1 as [[]|e|]; intros [= <- <-]; by exists rest.
Qed.

Lemma resume_continues_at_file_size_witness :
  let run := download_ranges (Origin.serve ten) 3 "u" (PathObj "f") 1024 4 true false
               three_of_ten in
  (∃ rest,
     sent run.2 = sent three_of_ten ++ probe_request "u" three_of_ten ::
       range_request "u" 3 7 three_of_ten :: rest)
  ∧ (∃ extra, fs run.2 !! "f" = Some (take 3 ten ++ extra))
  ∧ (run.1 = Returned true → ∃ c', fs run.2 !! "f" = Some c' ∧ 10 ≤ Z.of_nat (length c')).
Proof.
  refine (proj1 (resume_continues_at_file_size (Origin.serve ten) 2 "u" "f" 1024 4 10 false
                   three_of_ten _ _ _) (take 3 ten) _ _ _).
  - vm_compute. reflexivity.
  - vm_compute. reflexivity.
  - vm_compute. split; reflexivity.
  - vm_compute. reflexivity.
Defined.

Example resume_completes_the_file :
  let run := download_ranges (Origin.serve ten) 3 "u" (PathObj "f") 1024 4 true false
               three_of_ten in
  run.1 = Returned true
  ∧ ranges_sent run.2 = [None; Some "bytes=3-7"; Some "bytes=8-10"]
  ∧ fs run.2 !! "f" = Some ten.
Proof. vm_compute. repeat split; reflexivity. Qed.

(** ** A destination given as [str] *)

(** C10. [download_ranges] takes [Union[Path, str]], and with a [str]
    destination and a resource of known size it raises [AttributeError]
    at the first [file_out.stat()] of the loop instead of returning a
    boolean; with a [Path] it never raises that exception. *)
Theorem str_destination_raises
    (net : Network) (fuel : nat) (url p : string) (chunk block : Z) (resume debug : bool)
    (s : state) :
  _file_size (probe net url s) ≠ 0 →
  (download_ranges net (S fuel) url (StrObj p) chunk block resume debug s).1
    = Raised AttributeError
  ∧ (download_ranges net (S fuel) url (PathObj p) chunk block resume debug s).1
    ≠ Raised AttributeError.
Proof.
  intros Hsized. rewrite !download_ranges_unfold. cbv zeta.
  destruct (Z.eqb_spec (_file_size (probe net url s)) 0); [done|]. split; [reflexivity|].
  assert (fs (state_at_entry url (PathObj p) resume s) !! p
          = Some (content_at_entry (PathObj p) resume s)) as Hentry.
  { unfold state_at_entry; cbn [fs]. apply (files_at_entry_lookup (PathObj p)). }
  destruct (ranges_loop _ _ _ _ _ _ _ _) as [o1 s1] eqn:Hloop.
  destruct o1 as [[]|e|]; [| |discriminate].
  - eapply ranges_loop_frame in Hloop as ((extra & Hfile) & _); [|exact Hentry].
    unfold File.stat_size. rewrite Hfile. discriminate.
  - eapply ranges_loop_raises in Hloop as [->| ->]; [| |exact Hentry]; discriminate.
Qed.

Lemma str_destination_raises_witness :
  (download_ranges (Origin.serve ten) 3 "u" (StrObj "f") 1024 4 false false fresh).1
    = Raised AttributeError
  ∧ (download_ranges (Origin.serve ten) 3 "u" (PathObj "f") 1024 4 false false fresh).1
    ≠ Raised AttributeError.
Proof.
  apply (str_destination_raises (Origin.serve ten) 2 "u" "f" 1024 4 false false fresh).
  vm_compute. discriminate.
Defined.

(** ** A resource of unknown size *)

Lemma size_unknown_file_size (r : option Response) : size_unknown r → _file_size r = 0.
Proof.
  intros [->|(resp & -> & Hlen)]; [reflexivity|]. unfold _file_size.
  destruct (ok resp); [|reflexivity].
  destruct (CI.get "content-length" (headers resp)) as [v|]; [|reflexivity].
  cbn in Hlen. by rewrite Hlen.
Qed.

(** C9, as amended. When the metadata request has no answer or no
    readable [content-length], the probe gives size 0; and whenever the
    probe gives size 0, [download] fails after that one request, with
    the files as they were: it returns [False] when there is no answer,
    in debug mode too, and when there is an answer it returns [False]
    in non-debug mode and raises [ValueError] in debug mode. *)
Theorem unknown_size_is_fatal
    (net : Network) (fuel : nat) (url : string) (f : pathlike) (debug : bool) (s : state) :
  (size_unknown (probe net url s) → _file_size (probe net url s) = 0)
  ∧ (_file_size (probe net url s) = 0 →
     download net fuel url f debug s =
       (match probe net url s with
        | None => Returned false
        | Some _ => if debug then Raised ValueError else Returned false
        end,
        mkState (fs s) (session_headers s) (sent s ++ [probe_request url s]))).
Proof.
  split; [apply size_unknown_file_size|].
  intros Hsize. rewrite download_unfold. cbv zeta.
  destruct (probe net url s) as [resp|]; [|reflexivity]. by rewrite Hsize.
Qed.

Lemma unknown_size_is_fatal_witness :
  download lengthless 3 "u" (PathObj "f") true fresh
    = (Raised ValueError, mkState ∅ ∅ [probe_request "u" fresh])
  ∧ download unreachable 3 "u" (PathObj "f") false fresh
    = (Returned false, mkState ∅ ∅ [probe_request "u" fresh]).
Proof.
  split.
  - apply (proj2 (unknown_size_is_fatal lengthless 3 "u" (PathObj "f") true fresh)).
    apply (proj1 (unknown_size_is_fatal lengthless 3 "u" (PathObj "f") true fresh)).
    right. eexists. split; [reflexivity|]. vm_compute. reflexivity.
  - apply (proj2 (unknown_size_is_fatal unreachable 3 "u" (PathObj "f") false fresh)).
    apply (proj1 (unknown_size_is_fatal unreachable 3 "u" (PathObj "f") false fresh)).
    left. reflexivity.
Defined.

(** C9 as stated fails: in debug mode, with no answer to the metadata
    request, [download] raises nothing; it returns [False]. *)
Lemma no_answer_in_debug_mode_is_no_exception :
  (download unreachable 3 "u" (PathObj "f") true fresh).1 = Returned false
  ∧ ¬ ∃ e, (download unreachable 3 "u" (PathObj "f") true fresh).1 = Raised e.
Proof. split; [reflexivity|]. intros [e He]. vm_compute in He. discriminate. Qed.

(** ** Where the [Range] header goes *)

Section RangeHeader.

Variable net : Network.

Lemma stat_size_state (f : pathlike) (s : state) : (File.stat_size f s).2 = s.
Proof. unfold File.stat_size. destruct f; [destruct (fs s !! p)|]; reflexivity. Qed.

(** [download_ranges] sends its probe with the session headers it
    finds, and after it only ranged fetches. *)
Lemma download_ranges_sent (fuel : nat) (url : string) (f : pathlike) (chunk block : Z)
    (resume debug : bool) (s : state) (o : outcome bool) (s' : state) :
  download_ranges net fuel url f chunk block resume debug s = (o, s') →
  ∃ new, sent s' = sent s ++ probe_request url s :: new ∧ Forall is_range_fetch new.
Proof.
  rewrite download_ranges_unfold. cbv zeta.
  destruct (_ =? 0); [intros [= <- <-]; by exists []|].
  destruct (ranges_loop _ _ _ _ _ _ _ _) as [o1 s1] eqn:Hloop.
  assert (∃ new, sent s1 = sent s ++ probe_request url s :: new ∧ Forall is_range_fetch new)
    as Hsent.
  { destruct f as [p|p].
    - eapply ranges_loop_frame in Hloop as (_ & _ & new & Hsent & Hnew);
        [|unfold state_at_entry; cbn [fs]; apply (files_at_entry_lookup (PathObj p))].
      exists new. cbn [state_at_entry sent] in Hsent. by rewrite Hsent, <- app_assoc.
    - exists []. destruct fuel; cbn in Hloop; by injection Hloop as <- <-. }
  pose proof (stat_size_state f s1) as Hstat.
  destruct (File.stat_size f s1) as [[file_size|e|] s2]; cbn [snd] in Hstat; subst s2;
    destruct o1 as [[]|e1|]; by intros [= <- <-].
Qed.

(** [download_direct] sends one GET with the session headers it finds
    and leaves them as they are. *)
Lemma download_direct_sent (url : string) (f : pathlike) (chunk : Z) (debug : bool)
    (s : state) (o : outcome bool) (s' : state) :
  download_direct net url f chunk debug s = (o, s') →
  session_headers s' = session_headers s
  ∧ sent s' = sent s ++ [mkRequest "GET" url (session_headers s)].
Proof.
  rewrite download_direct_unfold. cbv zeta.
  destruct (net _ _) as [resp|]; [|by intros [= <- <-]].
  destruct (ok resp); [|by intros [= <- <-]].
  destruct f; by intros [= <- <-].
Qed.

End RangeHeader.

(** C7, as amended. Only the ranged fetch writes the [Range] header, and
    it writes it into the session. On a client whose session holds no
    [Range] header, as before its first ranged fetch, the requests sent
    outside the loop carry none: the metadata request, the GET of a
    direct download, which also leaves the session without one, and the
    probe of a ranged download, after which only ranged fetches go out. *)
Theorem no_range_header_before_first_ranged_fetch (net : Network) (s : state) :
  CI.get "Range" (session_headers s) = None →
  (∀ url o s',
     _head net url s = (o, s') →
     ∃ rq, sent s' = sent s ++ [rq]
           ∧ CI.get "Range" (req_headers rq) = None
           ∧ CI.get "Range" (session_headers s') = None)
  ∧ (∀ url f chunk debug o s',
       download_direct net url f chunk debug s = (o, s') →
       ∃ rq, sent s' = sent s ++ [rq]
             ∧ CI.get "Range" (req_headers rq) = None
             ∧ CI.get "Range" (session_headers s') = None)
  ∧ (∀ fuel url f chunk block resume debug o s',
       download_ranges net fuel url f chunk block resume debug s = (o, s') →
       ∃ rq new, sent s' = sent s ++ rq :: new
                 ∧ req_method rq = "HEAD"
                 ∧ CI.get "Range" (req_headers rq) = None
                 ∧ Forall is_range_fetch new).
Proof.
  intros Hnone. split; [|split].
  - intros url o s' [= <- <-]. eexists. split; [reflexivity|]. by split.
  - intros url f chunk debug o s' Hrun.
    apply download_direct_sent in Hrun as [Hheaders Hsent].
    eexists. split; [exact Hsent|]. split; [exact Hnone|]. by rewrite Hheaders.
  - intros fuel url f chunk block resume debug o s' Hrun.
    apply download_ranges_sent in Hrun as (new & Hsent & Hnew).
    exists (probe_request url s), new. by repeat split.
Qed.

Lemma no_range_header_before_first_ranged_fetch_witness :
  ∃ rq,
    sent (download_direct (Origin.serve ten) "u" (PathObj "f") 1024 false fresh).2
      = sent fresh ++ [rq]
    ∧ CI.get "Range" (req_headers rq) = None
    ∧ CI.get "Range"
        (session_headers (download_direct (Origin.serve ten) "u" (PathObj "f") 1024 false fresh).2)
      = None.
Proof.
  refine (proj1 (proj2 (no_range_header_before_first_ranged_fetch (Origin.serve ten) fresh _))
            "u" (PathObj "f") 1024 false
            (download_direct (Origin.serve ten) "u" (PathObj "f") 1024 false fresh).1 _ _).
  - reflexivity.
  - vm_compute. reflexivity.
Defined.

(** C7 as stated fails: after a ranged download of the ten bytes in
    blocks of four, a direct download on the same client sends the last
    [Range] header again, and comes back with [True] and the last five
    bytes only. *)
Lemma range_header_outlives_ranged_download :
  let s1 := (download_ranges (Origin.serve ten) 3 "u" (PathObj "f") 1024 4 false false fresh).2 in
  let run := download_direct (Origin.serve ten) "u" (PathObj "g") 1024 false s1 in
  ranges_sent run.2 = ranges_sent s1 ++ [Some "bytes=5-9"]
  ∧ run.1 = Returned true
  ∧ fs run.2 !! "g" = Some (drop 5 ten).
Proof. vm_compute. repeat split; reflexivity. Qed.

(** ** Range capability *)





(** ** The error window of [HTTPClient] *)

Lemma MemoryCache_size_add (now : Z) (key : string) (w : MemoryCache.t) :
  0 < MemoryCache.seconds w →
  MemoryCache.size now (MemoryCache.add now key w) = MemoryCache.size now w + 1.
Proof.
  intros Hpos. unfold MemoryCache.size, MemoryCache.add.
  cbn [MemoryCache.entries MemoryCache.seconds].
  rewrite filter_app, length_app, filter_cons_True by (cbn; lia).
  cbn [filter list_filter length]. lia.
Qed.

(** Every answered request puts a record into the window, whatever the
    status of the answer. *)
Lemma req_adds_record (net : Network) (now : Z) (method url : string)
    (c : HTTPClient.t) (w : MemoryCache.t) (resp : Response) :
  HTTPClient._errors c = Some w →
  net (sent (HTTPClient.session c))
      (mkRequest method url (session_headers (HTTPClient.session c))) = Some resp →
  (HTTPClient.req net now method url false c).1 = Returned (Some resp)
  ∧ HTTPClient._errors (HTTPClient.req net now method url false c).2
    = Some (MemoryCache.add now "error" w).
Proof.
  intros Hw Hresp. unfold HTTPClient.req. cbn [andb]. rewrite Hresp, Hw. by split.
Qed.

(** C6, on the code. A client made with [use_delay=True] sends one GET,
    the answer is 200, and the window that held no record holds one: the
    error count that [_backoff] reads has grown without a failure. *)
Theorem successful_request_counts_as_error :
  let c0 := HTTPClient.init "agent" None true in
  let run := HTTPClient.get all_is_well 100 "u" false c0 in
  run.1 = Returned (Some (mkResponse 200 ∅ []))
  ∧ ok (mkResponse 200 ∅ []) = true
  ∧ HTTPClient._is_limited (Some (mkResponse 200 ∅ [])) = false
  ∧ MemoryCache.size 100 <$> HTTPClient._errors c0 = Some 0
  ∧ MemoryCache.size 100 <$> HTTPClient._errors run.2 = Some 1.
Proof. vm_compute. repeat split; reflexivity. Qed.

(** A request that fails on the way, on the other hand, adds none. *)
Lemma unanswered_request_leaves_window (net : Network) (now : Z) (method url : string)
    (c : HTTPClient.t) :
  net (sent (HTTPClient.session c))
      (mkRequest method url (session_headers (HTTPClient.session c))) = None →
  (HTTPClient.req net now method url false c).1 = Returned None
  ∧ HTTPClient._errors (HTTPClient.req net now method url false c).2 = HTTPClient._errors c.
Proof. intros Hnone. unfold HTTPClient.req. cbn [andb]. rewrite Hnone. by split. Qed.

(** The same for any server, time and window with a positive retention. *)
Lemma answered_request_grows_window (net : Network) (now : Z) (method url : string)
    (c : HTTPClient.t) (w : MemoryCache.t) (resp : Response) :
  HTTPClient._errors c = Some w →
  0 < MemoryCache.seconds w →
  net (sent (HTTPClient.session c))
      (mkRequest method url (session_headers (HTTPClient.session c))) = Some resp →
  MemoryCache.size now <$> HTTPClient._errors (HTTPClient.req net now method url false c).2
    = Some (MemoryCache.size now w + 1).
Proof.
  intros Hw Hpos Hresp.
  destruct (req_adds_record net now method url c w resp Hw Hresp) as [_ ->].
  cbn. by rewrite MemoryCache_size_add.
Qed.

(** ** The backoff delay *)

Section Backoff.

Local Open Scope Q_scope.





End Backoff.



(** The shortest pauses of the test of [timer.py], which runs [backoff]
    for 0 to 9 errors with [base = 10], [factor = 2] and a percentage
    of 0.05. *)
Example backoff_shortest_pauses :
  (fun n => match Delayer.backoff 10 2 n (5 # 100) 0 with
            | Returned v => Qred v
            | _ => 0%Q
            end) <$> [0; 1; 2; 3; 4; 5; 6; 7; 8; 9]%Z
    = [20; 40; 80; 160; 320; 640; 1280; 2560; 5120; 10240]%Q.
Proof. vm_compute. reflexivity. Qed.

(** * More properties of the code *)

(** ** The direct strategy and [download_bytes] *)

(** X1. A direct download whose GET is answered with a success status
    leaves exactly the body of the answer in the destination, whatever
    was there before; the other files and the session headers are as
    they were. *)
Theorem download_direct_replaces_destination
    (net : Network) (url p : string) (chunk : Z) (debug : bool) (s : state) (resp : Response) :
  net (sent s) (mkRequest "GET" url (session_headers s)) = Some resp →
  ok resp = true →
  ∃ b s',
    download_direct net url (PathObj p) chunk debug s = (Returned b, s')
    ∧ fs s' !! p = Some (content resp)
    ∧ (∀ q, q ≠ p → fs s' !! q = fs s !! q)
    ∧ session_headers s' = session_headers s.
Proof.
  intros Hresp Hok. rewrite download_direct_unfold. cbv zeta. rewrite Hresp, Hok.
  eexists _, _. split; [reflexivity|]. cbn [fs session_headers fspath].
  split; [apply lookup_insert_eq|]. split; [|reflexivity].
  intros q Hq. by rewrite lookup_insert_ne.
Qed.

Lemma download_direct_replaces_destination_witness :
  ∃ b s',
    download_direct (Origin.serve ten) "u" (PathObj "f") 3 false three_of_ten = (Returned b, s')
    ∧ fs s' !! "f" = Some ten
    ∧ (∀ q, q ≠ "f" → fs s' !! q = fs three_of_ten !! q)
    ∧ session_headers s' = session_headers three_of_ten.
Proof.
  apply (download_direct_replaces_destination (Origin.serve ten) "u" "f" 3 false three_of_ten
           (Origin.reply 200 10 ten)); reflexivity.
Defined.



(** X3. A direct download to a destination given as [str] writes the
    whole body into the file and then raises [AttributeError] at
    [file_out.stat()]. *)
Theorem download_direct_str_writes_then_raises
    (net : Network) (url p : string) (chunk : Z) (debug : bool) (s : state) (resp : Response) :
  net (sent s) (mkRequest "GET" url (session_headers s)) = Some resp →
  ok resp = true →
  ∃ s',
    download_direct net url (StrObj p) chunk debug s = (Raised AttributeError, s')
    ∧ fs s' !! p = Some (content resp).
Proof.
  intros Hresp Hok. rewrite download_direct_unfold. cbv zeta. rewrite Hresp, Hok.
  eexists. split; [reflexivity|]. cbn [fs fspath]. apply lookup_insert_eq.
Qed.

Lemma download_direct_str_writes_then_raises_witness :
  ∃ s',
    download_direct (Origin.serve ten) "u" (StrObj "f") 3 false fresh
      = (Raised AttributeError, s')
    ∧ fs s' !! "f" = Some ten.
Proof.
  apply (download_direct_str_writes_then_raises (Origin.serve ten) "u" "f" 3 false fresh
           (Origin.reply 200 10 ten)); reflexivity.
Defined.

Lemma foldl_app_concat (chunks : list (list byte)) (acc : list byte) :
  foldl (fun _data chunk => _data ++ chunk) acc chunks = acc ++ concat chunks.
Proof.
  revert acc. induction chunks as [|chunk rest IH]; intros acc; cbn [foldl concat].
  - by rewrite app_nil_r.
  - by rewrite IH, app_assoc.
Qed.

(** X4. [download_bytes] gives back the body of a successful answer,
    for every chunk size, zero and negative ones included, and touches
    no file and no session header; it sends the one GET. *)
Theorem download_bytes_returns_body
    (net : Network) (url : string) (chunk : Z) (s : state) (resp : Response) :
  net (sent s) (mkRequest "GET" url (session_headers s)) = Some resp →
  ok resp = true →
  download_bytes net url chunk s =
    (Returned (content resp),
     mkState (fs s) (session_headers s) (sent s ++ [mkRequest "GET" url (session_headers s)])).
Proof.
  intros Hresp Hok. unfold download_bytes, bind at 1, get, req. rewrite Hresp.
  unfold with_response, bind, raise_for_status. rewrite Hok. unfold ret.
  by rewrite foldl_app_concat, iter_content_concat.
Qed.

Lemma download_bytes_returns_body_witness :
  download_bytes (Origin.serve ten) "u" 0 fresh =
    (Returned ten, mkState ∅ ∅ [mkRequest "GET" "u" ∅]).
Proof.
  apply (download_bytes_returns_body (Origin.serve ten) "u" 0 fresh (Origin.reply 200 10 ten));
    reflexivity.
Defined.

(** ** What a ranged download leaves behind *)

Lemma range_request_after_append (url p : string) (c body : list byte) (k e a b : Z) (s : state) :
  range_request url a b (after_append url p c body k e s) = range_request url a b s.
Proof. unfold range_request, after_append. cbn [session_headers]. by rewrite CI_set_set. Qed.

Section Session.

Variable net : Network.
Variables (url p : string) (chunk block total : Z).

(** The session after the loop: as before when nothing was sent, and
    otherwise the headers of the last request, which are the headers
    before the loop with [Range] set. *)
Lemma ranges_loop_session (fuel : nat) (s : state) (c : list byte) (o : outcome unit) (s' : state) :
  fs s !! p = Some c →
  ranges_loop net fuel url (PathObj p) chunk block total s = (o, s') →
  (session_headers s' = session_headers s ∧ sent s' = sent s)
  ∨ ∃ a b older,
      sent s' = sent s ++ older ++ [range_request url a b s]
      ∧ session_headers s' = CI.set "Range" (range_value a b) (session_headers s).
Proof.
  revert s c. induction fuel as [|fuel IH]; intros s c Hc Hrun.
  { cbn in Hrun. injection Hrun as <- <-. by left. }
  rewrite (ranges_loop_unfold _ _ _ _ _ _ _ _ c) in Hrun by exact Hc. cbv zeta in Hrun.
  set (k := Z.of_nat (length c)) in *. set (e := Z.min (k + block) total) in *.
  assert (∃ a b older,
            sent (after_request url k e s) = sent s ++ older ++ [range_request url a b s]
            ∧ session_headers (after_request url k e s)
              = CI.set "Range" (range_value a b) (session_headers s)) as Hrequest.
  { by exists k, e, []. }
  destruct (k >=? total); [injection Hrun as <- <-; by left|].
  destruct (net _ _) as [resp|]; [|injection Hrun as <- <-; by right].
  destruct (ok resp); [|injection Hrun as <- <-; by right].
  destruct (e >=? total); [injection Hrun as <- <-; right; by exists k, e, []|].
  eapply IH in Hrun; [|unfold after_append; cbn [fs]; apply lookup_insert_eq].
  right. destruct Hrun as [[Hheaders Hsent]|(a & b & older & Hsent & Hheaders)].
  - exists k, e, []. by rewrite Hheaders, Hsent.
  - exists a, b, (range_request url k e s :: older).
    rewrite Hsent, Hheaders, range_request_after_append.
    unfold after_append; cbn [sent session_headers].
    split; [by rewrite <- app_assoc | apply CI_set_set].
Qed.

End Session.

Lemma CI_get_set_ne (k k' v : string) (d : CI.dict) :
  Str.lower k ≠ Str.lower k' → CI.get k (CI.set k' v d) = CI.get k d.
Proof. intros Hne. unfold CI.get, CI.set. by rewrite lookup_insert_ne. Qed.

(** The files and the session headers that a ranged download to a [Path]
    can change: the destination, and [Range]. *)
Lemma download_ranges_footprint
    (net : Network) (fuel : nat) (url p : string) (chunk block : Z) (resume debug : bool)
    (s : state) (o : outcome bool) (s' : state) :
  download_ranges net fuel url (PathObj p) chunk block resume debug s = (o, s') →
  (∀ q, q ≠ p → fs s' !! q = fs s !! q)
  ∧ (∀ key, Str.lower key ≠ "range" →
       CI.get key (session_headers s') = CI.get key (session_headers s)).
Proof.
  rewrite download_ranges_unfold. cbv zeta.
  assert (∀ q, q ≠ p →
            (if resume then fs s else delete p (fs s)) !! q = fs s !! q) as Hdel.
  { intros q Hq. destruct resume; [done|]. by rewrite lookup_delete_ne. }
  destruct (_ =? 0).
  { intros [= <- <-]. cbn [state_at_probe fs session_headers fspath]. by split. }
  assert (fs (state_at_entry url (PathObj p) resume s) !! p
          = Some (content_at_entry (PathObj p) resume s)) as Hentry.
  { unfold state_at_entry; cbn [fs]. apply (files_at_entry_lookup (PathObj p)). }
  assert (∀ q, q ≠ p → fs (state_at_entry url (PathObj p) resume s) !! q = fs s !! q)
    as Hothers.
  { intros q Hq. unfold state_at_entry, files_at_entry; cbn [fs fspath].
    destruct ((if resume then fs s else delete p (fs s)) !! p); [by apply Hdel|].
    rewrite lookup_insert_ne by done. by apply Hdel. }
  destruct (ranges_loop _ _ _ _ _ _ _ _) as [o1 s1] eqn:Hloop.
  pose proof (ranges_loop_frame _ _ _ _ _ _ _ _ _ _ _ Hentry Hloop) as (_ & Hframe & _).
  pose proof (ranges_loop_session _ _ _ _ _ _ _ _ _ _ _ Hentry Hloop) as Hsession.
  assert ((∀ q, q ≠ p → fs s1 !! q = fs s !! q)
          ∧ (∀ key, Str.lower key ≠ "range" →
               CI.get key (session_headers s1) = CI.get key (session_headers s))) as Hs1.
  { split.
    - intros q Hq. rewrite Hframe by done. by apply Hothers.
    - intros key Hkey.
      destruct Hsession as [[-> _]|(a & b & older & _ & ->)]; [done|].
      cbn [state_at_entry session_headers]. by apply CI_get_set_ne. }
  pose proof (stat_size_state (PathObj p) s1) as Hstat.
  destruct (File.stat_size (PathObj p) s1) as [[file_size|e|] s2]; cbn [snd] in Hstat; subst s2;
    destruct o1 as [[]|e1|]; by intros [= <- <-].
Qed.

(** X5. Whatever the server does and however the call ends, a ranged
    download to a [Path] leaves every other file as it was and changes
    no session header but [Range]: the [User-Agent] and the other
    headers are kept. *)
Theorem download_ranges_touches_destination_and_range_only
    (net : Network) (fuel : nat) (url p : string) (chunk block : Z) (resume debug : bool)
    (s : state) (o : outcome bool) (s' : state) :
  download_ranges net fuel url (PathObj p) chunk block resume debug s = (o, s') →
  (∀ q, q ≠ p → fs s' !! q = fs s !! q)
  ∧ (∀ key, Str.lower key ≠ "range" →
       CI.get key (session_headers s') = CI.get key (session_headers s)).
Proof. exact (download_ranges_footprint net fuel url p chunk block resume debug s o s'). Qed.

Lemma download_ranges_touches_destination_and_range_only_witness :
  let run := download_ranges (Origin.serve ten) 3 "u" (PathObj "f") 1024 4 false false furnished in
  (∀ q, q ≠ "f" → fs run.2 !! q = fs furnished !! q)
  ∧ (∀ key, Str.lower key ≠ "range" →
       CI.get key (session_headers run.2) = CI.get key (session_headers furnished)).
Proof.
  apply (download_ranges_touches_destination_and_range_only (Origin.serve ten) 3 "u" "f"
           1024 4 false false furnished
           (download_ranges (Origin.serve ten) 3 "u" (PathObj "f") 1024 4 false false furnished).1).
  vm_compute. reflexivity.
Defined.

(** X6. When a ranged download has sent a ranged fetch, the session
    keeps the [Range] header of the last one: the headers of the
    session after the call are the headers that request carried. *)
Theorem download_ranges_keeps_last_range
    (net : Network) (fuel : nat) (url p : string) (chunk block : Z) (resume debug : bool)
    (s : state) (o : outcome bool) (s' : state) (older : list Request) (rq : Request) :
  download_ranges net fuel url (PathObj p) chunk block resume debug s = (o, s') →
  sent s' = sent s ++ probe_request url s :: older ++ [rq] →
  session_headers s' = req_headers rq
  ∧ ∃ a b, CI.get "Range" (session_headers s') = Some (range_value a b).
Proof.
  rewrite download_ranges_unfold. cbv zeta.
  destruct (_ =? 0).
  { intros [= <- <-] Hsent. cbn [state_at_probe sent] in Hsent.
    apply app_inv_head in Hsent. injection Hsent as Hsent. by destruct older. }
  assert (fs (state_at_entry url (PathObj p) resume s) !! p
          = Some (content_at_entry (PathObj p) resume s)) as Hentry.
  { unfold state_at_entry; cbn [fs]. apply (files_at_entry_lookup (PathObj p)). }
  destruct (ranges_loop _ _ _ _ _ _ _ _) as [o1 s1] eqn:Hloop.
  pose proof (ranges_loop_session _ _ _ _ _ _ _ _ _ _ _ Hentry Hloop) as Hsession.
  intros Hrun Hsent.
  assert (s1 = s') as <-.
  { pose proof (stat_size_state (PathObj p) s1) as Hstat. revert Hrun.
    destruct (File.stat_size (PathObj p) s1) as [[file_size|e|] s2]; cbn [snd] in Hstat;
      subst s2; destruct o1 as [[]|e1|]; by intros [= <- <-]. }
  destruct Hsession as [[_ Hnone]|(a & b & older' & Hsome & Hheaders)].
  - rewrite Hnone in Hsent. cbn [state_at_entry sent] in Hsent.
    apply app_inv_head in Hsent. injection Hsent as Hsent. by destruct older.
  - rewrite Hsome in Hsent. cbn [state_at_entry sent] in Hsent.
    rewrite <- app_assoc in Hsent. apply app_inv_head in Hsent.
    injection Hsent as Hsent. apply app_inj_tail in Hsent as [_ <-].
    rewrite Hheaders. cbn [state_at_entry session_headers range_request req_headers].
    split; [reflexivity|]. exists a, b. apply CI_get_set.
Qed.

Lemma download_ranges_keeps_last_range_witness :
  let run := download_ranges (Origin.serve ten) 3 "u" (PathObj "f") 1024 4 false false fresh in
  session_headers run.2 = CI.set "Range" "bytes=5-9" ∅
  ∧ ∃ a b, CI.get "Range" (session_headers run.2) = Some (range_value a b).
Proof.
  apply (download_ranges_keeps_last_range (Origin.serve ten) 3 "u" "f" 1024 4 false false fresh
           (download_ranges (Origin.serve ten) 3 "u" (PathObj "f") 1024 4 false false fresh).1
           (download_ranges (Origin.serve ten) 3 "u" (PathObj "f") 1024 4 false false fresh).2
           [range_request "u" 0 4 fresh]
           (mkRequest "GET" "u" (CI.set "Range" "bytes=5-9" ∅))).
  - vm_compute. reflexivity.
  - vm_compute. reflexivity.
Defined.

(** ** Ranged downloads that come to an end *)

(** The trace is complete once the fuel exceeds the bytes that are
    missing: every turn adds at least one byte. *)
Lemma trace_complete (fuel : nat) (block total k : Z) :
  1 ≤ block → (Z.to_nat (total - k) < fuel)%nat →
  (Origin.trace fuel block total k).2 = true.
Proof.
  intros Hblock. revert k. induction fuel as [|fuel IH]; intros k Hfuel; [lia|].
  cbn [Origin.trace]. destruct (Z.geb_spec k total); [reflexivity|].
  destruct (Z.geb_spec (Z.min (k + block) total) total); [reflexivity|].
  specialize (IH (Z.min (k + block) total + 1) ltac:(lia)).
  by destruct (Origin.trace fuel block total _).
Qed.

(** All requests of the trace but the last bring [block + 1] bytes. *)
Lemma trace_length (fuel : nat) (block total k : Z) :
  1 ≤ block → k < total →
  (Z.of_nat (length (Origin.trace fuel block total k).1) - 1) * (block + 1) < total - k.
Proof.
  intros Hblock. revert k. induction fuel as [|fuel IH]; intros k Hk; [cbn; lia|].
  cbn [Origin.trace]. destruct (Z.geb_spec k total); [lia|].
  destruct (Z.geb_spec (Z.min (k + block) total) total); [cbn; lia|].
  destruct (Z.ltb_spec (Z.min (k + block) total + 1) total) as [Hmore|Hdone].
  - specialize (IH _ Hmore).
    destruct (Origin.trace fuel block total _) as [ws b]. cbn [fst length] in *. nia.
  - assert ((Origin.trace fuel block total (Z.min (k + block) total + 1)).1 = []) as Hnil.
    { destruct fuel; [reflexivity|]. cbn [Origin.trace].
      destruct (Z.geb_spec (Z.min (k + block) total + 1) total); [reflexivity|lia]. }
    destruct (Origin.trace fuel block total _) as [ws b]. cbn [fst] in *. subst ws.
    cbn [length]. lia.
Qed.

(** A ranged download against the origin server with enough turns: its
    result, the file, and the count of the fetches. *)
Lemma download_ranges_origin_complete
    (res : list byte) (url p : string) (chunk block : Z) (resume debug : bool)
    (s : state) (fuel : nat) :
  res ≠ [] →
  1 ≤ block →
  content_at_entry (PathObj p) resume s
    = take (length (content_at_entry (PathObj p) resume s)) res →
  (length (content_at_entry (PathObj p) resume s) < length res)%nat →
  (length res - length (content_at_entry (PathObj p) resume s) < fuel)%nat →
  ∃ s' fetches,
    download_ranges (Origin.serve res) fuel url (PathObj p) chunk block resume debug s
      = (Returned true, s')
    ∧ fs s' !! p = Some res
    ∧ sent s' = sent s ++ probe_request url s :: fetches
    ∧ Forall is_range_fetch fetches
    ∧ (Z.of_nat (length fetches) - 1) * (block + 1)
      < Z.of_nat (length res) - Z.of_nat (length (content_at_entry (PathObj p) resume s)).
Proof.
  intros Hres Hblock Hprefix Hshort Hfuel.
  assert (0 < Z.of_nat (length res)) as Hpos by (destruct res; [done|cbn; lia]).
  destruct (download_ranges_origin res (Z.of_nat (length res)) eq_refl url p chunk block
              Hblock resume debug s Hprefix ltac:(lia) Hpos fuel)
    as (s' & Hrun & Hsent & Hfile).
  pose proof (trace_complete fuel block (Z.of_nat (length res))
                (Z.of_nat (length (content_at_entry (PathObj p) resume s))) Hblock
                ltac:(lia)) as Hdone.
  pose proof (trace_length fuel block (Z.of_nat (length res))
                (Z.of_nat (length (content_at_entry (PathObj p) resume s))) Hblock
                ltac:(lia)) as Hcount.
  rewrite Hdone in Hrun. specialize (Hfile Hdone).
  destruct (download_ranges_sent _ _ _ _ _ _ _ _ _ _ _ Hrun) as (fetches & Hfetches & Hall).
  exists s', fetches. repeat split; try done.
  assert (length fetches
          = length (Origin.trace fuel block (Z.of_nat (length res))
                      (Z.of_nat (length (content_at_entry (PathObj p) resume s)))).1) as ->.
  { apply (f_equal length) in Hsent. unfold ranges_sent in Hsent.
    rewrite Hfetches in Hsent.
    rewrite length_fmap, !length_app, !length_cons, !length_fmap in Hsent. lia. }
  exact Hcount.
Qed.

(** X7. Against a server that honours byte ranges, a ranged download of
    a non-empty resource with a block of at least one byte, from a
    destination that holds a prefix of the resource (nothing, with
    [resume=False]), comes back with [True] and the resource in the
    file as soon as the turns allowed exceed the bytes missing; what it
    sends after the metadata request are ranged fetches, and as each but
    the last brings [block_size + 1] bytes, one less than their number,
    times [block_size + 1], stays below the bytes missing. *)
Theorem ranged_download_completes
    (res : list byte) (url p : string) (chunk block : Z) (resume debug : bool)
    (s : state) (fuel : nat) :
  res ≠ [] →
  1 ≤ block →
  content_at_entry (PathObj p) resume s
    = take (length (content_at_entry (PathObj p) resume s)) res →
  (length (content_at_entry (PathObj p) resume s) < length res)%nat →
  (length res - length (content_at_entry (PathObj p) resume s) < fuel)%nat →
  ∃ s' fetches,
    download_ranges (Origin.serve res) fuel url (PathObj p) chunk block resume debug s
      = (Returned true, s')
    ∧ fs s' !! p = Some res
    ∧ sent s' = sent s ++ probe_request url s :: fetches
    ∧ Forall is_range_fetch fetches
    ∧ (Z.of_nat (length fetches) - 1) * (block + 1)
      < Z.of_nat (length res) - Z.of_nat (length (content_at_entry (PathObj p) resume s)).
Proof. exact (download_ranges_origin_complete res url p chunk block resume debug s fuel). Qed.

Lemma ranged_download_completes_witness :
  ∃ s' fetches,
    download_ranges (Origin.serve ten) 8 "u" (PathObj "f") 1024 4 true false three_of_ten
      = (Returned true, s')
    ∧ fs s' !! "f" = Some ten
    ∧ sent s' = sent three_of_ten ++ probe_request "u" three_of_ten :: fetches
    ∧ Forall is_range_fetch fetches
    ∧ (Z.of_nat (length fetches) - 1) * (4 + 1)
      < Z.of_nat (length ten)
        - Z.of_nat (length (content_at_entry (PathObj "f") true three_of_ten)).
Proof.
  apply (ranged_download_completes ten "u" "f" 1024 4 true false three_of_ten 8).
  - discriminate.
  - lia.
  - reflexivity.
  - vm_compute. lia.
  - vm_compute. lia.
Defined.

(** ** Servers without ranges *)

Lemma length_only_content_length (len : string) :
  CI.get "content-length" (CI.of_list [("Content-Length", len)]) = Some len.
Proof.
  unfold CI.of_list, CI.get, CI.set. cbn [foldl fst snd].
  change (Str.lower "content-length") with "content-length".
  change (Str.lower "Content-Length") with "content-length".
  by rewrite lookup_insert_eq.
Qed.

Lemma length_and_none_content_length (len : string) :
  CI.get "content-length" (CI.of_list [("Content-Length", len); ("Accept-Ranges", "none")])
    = Some len.
Proof.
  unfold CI.of_list, CI.get, CI.set. cbn [foldl fst snd].
  change (Str.lower "content-length") with "content-length".
  change (Str.lower "Content-Length") with "content-length".
  change (Str.lower "Accept-Ranges") with "accept-ranges".
  rewrite lookup_insert_ne by discriminate. by rewrite lookup_insert_eq.
Qed.

Lemma unranged_file_size (res : list byte) (hist : list Request) (rq : Request) :
  _file_size (unranged res hist rq) = Z.of_nat (length res).
Proof.
  unfold unranged, _file_size. cbn [headers].
  change (ok (mkResponse 200 _ _)) with true. cbv iota.
  rewrite length_and_none_content_length, py_int_pretty by lia. reflexivity.
Qed.

Lemma plain_file_size (res : list byte) (hist : list Request) (rq : Request) :
  _file_size (plain res hist rq) = Z.of_nat (length res).
Proof.
  unfold plain, _file_size. cbn [headers].
  change (ok (mkResponse 200 _ _)) with true. cbv iota.
  rewrite length_only_content_length, py_int_pretty by lia. reflexivity.
Qed.

(** X8. A server that ignores [Range] answers every ranged fetch with
    the whole resource. The ranged download then comes back with [True]
    after one fetch, and the file is what the destination held on entry
    followed by the whole resource: right with [resume=False], and with
    the head of the resource twice when resuming from a part of it. *)
Theorem ranged_download_from_server_that_ignores_range
    (res : list byte) (url p : string) (chunk block : Z) (resume debug : bool)
    (s : state) (fuel : nat) :
  (length (content_at_entry (PathObj p) resume s) < length res)%nat →
  ∃ s' fetch,
    download_ranges (unranged res) (S (S fuel)) url (PathObj p) chunk block resume debug s
      = (Returned true, s')
    ∧ fs s' !! p = Some (content_at_entry (PathObj p) resume s ++ res)
    ∧ sent s' = sent s ++ [probe_request url s; fetch].
Proof.
  intros Hshort. rewrite download_ranges_unfold. unfold probe.
  rewrite unranged_file_size. cbv zeta.
  destruct (Z.eqb_spec (Z.of_nat (length res)) 0); [lia|].
  set (c := content_at_entry (PathObj p) resume s) in *.
  set (s0 := state_at_entry url (PathObj p) resume s).
  assert (fs s0 !! p = Some c) as Hentry.
  { unfold s0, state_at_entry; cbn [fs]. apply (files_at_entry_lookup (PathObj p)). }
  rewrite (ranges_loop_unfold _ _ _ _ _ _ _ _ c) by exact Hentry. cbv zeta.
  destruct (Z.geb_spec (Z.of_nat (length c)) (Z.of_nat (length res))); [lia|].
  set (e := Z.min (Z.of_nat (length c) + block) (Z.of_nat (length res))).
  unfold unranged at 1. cbn [range_request req_method String.eqb Ascii.eqb Bool.eqb].
  change (ok (mkResponse 200 _ _)) with true. cbv iota. cbn [content].
  set (s1 := after_append url p c res (Z.of_nat (length c)) e s0).
  assert (fs s1 !! p = Some (c ++ res)) as Hfile.
  { unfold s1, after_append; cbn [fs]. apply lookup_insert_eq. }
  assert (ranges_loop (unranged res) (S fuel) url (PathObj p) chunk block
            (Z.of_nat (length res)) s1 = (Returned tt, s1)) as Hnext.
  { rewrite (ranges_loop_unfold _ _ _ _ _ _ _ _ (c ++ res)) by exact Hfile. cbv zeta.
    rewrite length_app.
    destruct (Z.geb_spec (Z.of_nat (length c + length res)) (Z.of_nat (length res)));
      [reflexivity|lia]. }
  assert (File.stat_size (PathObj p) s1
          = (Returned (Z.of_nat (length (c ++ res))), s1)) as Hstat.
  { unfold File.stat_size. by rewrite Hfile. }
  exists s1, (range_request url (Z.of_nat (length c)) e s0).
  destruct (e >=? Z.of_nat (length res)); rewrite ?Hnext, Hstat;
    (split; [|split; [exact Hfile|]]).
  - rewrite length_app.
    by destruct (Z.geb_spec (Z.of_nat (length c + length res)) (Z.of_nat (length res)));
      [|lia].
  - unfold s1, after_append, s0, state_at_entry; cbn [sent]. by rewrite <- app_assoc.
  - rewrite length_app.
    by destruct (Z.geb_spec (Z.of_nat (length c + length res)) (Z.of_nat (length res)));
      [|lia].
  - unfold s1, after_append, s0, state_at_entry; cbn [sent]. by rewrite <- app_assoc.
Qed.

Lemma ranged_download_from_server_that_ignores_range_witness :
  ∃ s' fetch,
    download_ranges (unranged ten) 2 "u" (PathObj "f") 1024 4 true false three_of_ten
      = (Returned true, s')
    ∧ fs s' !! "f" = Some (take 3 ten ++ ten)
    ∧ sent s' = sent three_of_ten ++ [probe_request "u" three_of_ten; fetch].
Proof.
  apply (ranged_download_from_server_that_ignores_range ten "u" "f" 1024 4 true false
           three_of_ten 0).
  vm_compute. lia.
Defined.

(** X9. From a server that does not mention ranges, [download] of a
    non-empty resource takes the direct strategy: one metadata request
    and one GET, neither changing the session headers, and it comes back
    with [True] and the resource in the file. *)
Theorem download_from_plain_server
    (res : list byte) (fuel : nat) (url p : string) (debug : bool) (s : state) :
  res ≠ [] →
  ∃ s',
    download (plain res) fuel url (PathObj p) debug s = (Returned true, s')
    ∧ fs s' !! p = Some res
    ∧ sent s' = sent s ++ [probe_request url s; mkRequest "GET" url (session_headers s)]
    ∧ session_headers s' = session_headers s.
Proof.
  intros Hres. assert (0 < Z.of_nat (length res)) as Hpos by (destruct res; [done|cbn; lia]).
  rewrite download_unfold. cbv zeta.
  pose proof (plain_file_size res (sent s) (probe_request url s)) as Hsize.
  unfold probe. destruct (plain res (sent s) (probe_request url s)) as [resp|] eqn:Hprobe;
    [|cbn in Hsize; lia].
  rewrite Hsize. destruct (Z.eqb_spec (Z.of_nat (length res)) 0); [lia|].
  assert (_has_range resp = false) as ->.
  { unfold plain in Hprobe. injection Hprobe as <-. reflexivity. }
  rewrite download_direct_unfold. cbv zeta. cbn [sent session_headers fs fspath].
  pose proof (plain_file_size res (sent s ++ [probe_request url s])
                (mkRequest "GET" url (session_headers s))) as Hsize'.
  unfold plain at 1. unfold plain at 1 in Hsize'.
  cbn [req_method String.eqb Ascii.eqb Bool.eqb] in Hsize' |- *.
  change (ok (mkResponse 200 _ _)) with true. cbv iota. cbn [content].
  rewrite Hsize'. eexists. split; [|split; [|split]].
  - destruct (Z.geb_spec (Z.of_nat (length res)) (Z.of_nat (length res))); [reflexivity|lia].
  - cbn [fs]. apply lookup_insert_eq.
  - cbn [sent]. by rewrite <- app_assoc.
  - reflexivity.
Qed.

Lemma download_from_plain_server_witness :
  ∃ s',
    download (plain ten) 0 "u" (PathObj "f") false furnished = (Returned true, s')
    ∧ fs s' !! "f" = Some ten
    ∧ sent s' = sent furnished
        ++ [probe_request "u" furnished; mkRequest "GET" "u" (session_headers furnished)]
    ∧ session_headers s' = session_headers furnished.
Proof. apply (download_from_plain_server ten 0 "u" "f" false furnished). discriminate. Defined.

(** X10. From a server that honours byte ranges, [download] of a
    non-empty resource takes the ranged strategy with its default block
    and comes back with [True] and the resource in the file, as soon as
    the turns allowed exceed the length of the resource. *)
Theorem download_from_range_server
    (res : list byte) (fuel : nat) (url p : string) (debug : bool) (s : state) :
  res ≠ [] →
  (length res < fuel)%nat →
  ∃ s',
    download (Origin.serve res) fuel url (PathObj p) debug s = (Returned true, s')
    ∧ fs s' !! p = Some res
    ∧ (∀ q, q ≠ p → fs s' !! q = fs s !! q).
Proof.
  intros Hres Hfuel.
  assert (0 < Z.of_nat (length res)) as Hpos by (destruct res; [done|cbn; lia]).
  rewrite download_unfold. cbv zeta. unfold probe.
  pose proof (origin_file_size res (sent s) (probe_request url s) eq_refl) as Hsize.
  destruct (Origin.serve res (sent s) (probe_request url s)) as [resp|] eqn:Hprobe;
    [|cbn in Hsize; lia].
  rewrite Hsize. destruct (Z.eqb_spec (Z.of_nat (length res)) 0); [lia|].
  assert (_has_range resp = true) as ->.
  { unfold Origin.serve in Hprobe. cbn [probe_request req_method String.eqb Ascii.eqb Bool.eqb]
      in Hprobe. injection Hprobe as <-. reflexivity. }
  set (s1 := mkState (fs s) (session_headers s) (sent s ++ [probe_request url s])).
  destruct (download_ranges_origin_complete res url p 1024 (1024 * 1024) false debug s1 fuel
              Hres ltac:(lia) eq_refl ltac:(cbn; lia) ltac:(cbn; lia))
    as (s' & fetches & Hrun & Hfile & _).
  exists s'. split; [exact Hrun|]. split; [exact Hfile|].
  apply (download_ranges_footprint _ _ _ _ _ _ _ _ _ _ _ Hrun).
Qed.

Lemma download_from_range_server_witness :
  ∃ s',
    download (Origin.serve ten) 11 "u" (PathObj "f") false furnished = (Returned true, s')
    ∧ fs s' !! "f" = Some ten
    ∧ (∀ q, q ≠ "f" → fs s' !! q = fs furnished !! q).
Proof.
  apply (download_from_range_server ten 11 "u" "f" false furnished).
  - discriminate.
  - vm_compute. lia.
Defined.

(** ** The size read from the headers *)

(** X11. [_file_size] finds the length under any spelling of the header
    name, and gives the number written there when the status is no
    error; for a 4xx or 5xx answer it gives 0 whatever the header says. *)
Theorem file_size_reads_any_spelling
    (status : Z) (name : string) (n : Z) (d : CI.dict) (body : list byte) :
  Str.lower name = "content-length" →
  0 ≤ n →
  _file_size (Some (mkResponse status (CI.set name (pretty n) d) body))
    = if (400 <=? status) && (status <? 600) then 0 else n.
Proof.
  intros Hname Hn. unfold _file_size, ok. cbn [status_code headers].
  destruct ((400 <=? status) && (status <? 600)); [reflexivity|]. cbn [negb].
  unfold CI.get, CI.set. rewrite Hname.
  change (Str.lower "content-length") with "content-length".
  rewrite lookup_insert_eq. cbn [fmap option_fmap option_map snd].
  by rewrite py_int_pretty.
Qed.

Lemma file_size_reads_any_spelling_witness :
  _file_size (Some (mkResponse 200 (CI.set "CONTENT-length" (pretty 42) ∅) [])) = 42
  ∧ _file_size (Some (mkResponse 404 (CI.set "Content-Length" (pretty 42) ∅) [])) = 0.
Proof.
  split.
  - apply (file_size_reads_any_spelling 200 "CONTENT-length" 42 ∅ []); [reflexivity|lia].
  - apply (file_size_reads_any_spelling 404 "Content-Length" 42 ∅ []); [reflexivity|lia].
Defined.

(** X12. A negative length in the answer to the probe passes the test
    for an unknown size, and the loop is left at its first line: the
    ranged download comes back with [True] without a single fetch. *)
Theorem negative_size_is_success_without_fetch
    (net : Network) (fuel : nat) (url p : string) (chunk block : Z) (resume debug : bool)
    (s : state) :
  _file_size (probe net url s) < 0 →
  download_ranges net (S fuel) url (PathObj p) chunk block resume debug s
    = (Returned true, state_at_entry url (PathObj p) resume s).
Proof.
  intros Hneg. rewrite download_ranges_unfold. cbv zeta.
  destruct (Z.eqb_spec (_file_size (probe net url s)) 0); [lia|].
  assert (fs (state_at_entry url (PathObj p) resume s) !! p
          = Some (content_at_entry (PathObj p) resume s)) as Hentry.
  { unfold state_at_entry; cbn [fs]. apply (files_at_entry_lookup (PathObj p)). }
  rewrite (ranges_loop_unfold _ _ _ _ _ _ _ _ _ Hentry). cbv zeta.
  destruct (Z.geb_spec (Z.of_nat (length (content_at_entry (PathObj p) resume s)))
              (_file_size (probe net url s))); [|lia].
  unfold File.stat_size. rewrite Hentry.
  by destruct (Z.geb_spec (Z.of_nat (length (content_at_entry (PathObj p) resume s)))
                 (_file_size (probe net url s))); [|lia].
Qed.

Lemma negative_size_is_success_without_fetch_witness :
  download_ranges negative_length 1 "u" (PathObj "f") 1024 4 false false fresh
    = (Returned true, mkState {[ "f" := [] ]} ∅ [probe_request "u" fresh]).
Proof.
  refine (eq_trans
            (negative_size_is_success_without_fetch negative_length 0 "u" "f" 1024 4
               false false fresh _) _).
  - vm_compute. reflexivity.
  - vm_compute. reflexivity.
Defined.

(** ** The pauses of [Delayer] *)

Section DelayerFacts.

Local Open Scope Q_scope.









End DelayerFacts.


(** ** The backoff of [HTTPClient] *)

Section ClientBackoff.

Local Open Scope Q_scope.






End ClientBackoff.


(** ** The headers of [HTTPBasic] *)

Lemma header_set_state (key : string) (value : option string) (s : state) :
  HTTPBasic.header_set key value s =
    (Returned tt,
     mkState (fs s)
             (match value with
              | Some v => CI.set key v (session_headers s)
              | None => CI.del key (session_headers s)
              end)
             (sent s)).
Proof.
  unfold HTTPBasic.header_set. destruct value as [v|]; [reflexivity|].
  unfold CI.contains, CI.del.
  destruct (session_headers s !! Str.lower key) eqn:Hk; [reflexivity|].
  by rewrite delete_id, state_eta.
Qed.

Lemma set_all_state (items : list (string * option string)) (s : state) :
  HTTPBasic.set_all items s =
    (Returned tt, mkState (fs s) (headers_after items (session_headers s)) (sent s)).
Proof.
  revert s. induction items as [|[key value] rest IH]; intros s.
  - cbn. by rewrite state_eta.
  - cbn [HTTPBasic.set_all]. unfold bind. rewrite header_set_state, IH.
    cbn [fs session_headers sent]. unfold headers_after. cbn [foldl fst snd].
    by rewrite header_set_state.
Qed.

(** X19. A header that [header_set] has written is the one [header_get]
    reads, under any spelling of a non-empty name. *)
Theorem header_get_after_header_set (key key' v : string) (s : state) :
  key' ≠ "" →
  Str.lower key' = Str.lower key →
  HTTPBasic.header_get key' (HTTPBasic.header_set key (Some v) s).2 = v.
Proof.
  intros Hkey Hlower. rewrite header_set_state. cbn [snd].
  unfold HTTPBasic.header_get, CI.contains, CI.get, CI.set. cbn [session_headers].
  rewrite Hlower, lookup_insert_eq, bool_decide_eq_false_2 by done.
  cbn [negb andb fmap option_fmap option_map snd]. by case_bool_decide.
Qed.

Lemma header_get_after_header_set_witness :
  HTTPBasic.header_get "ACCEPT" (HTTPBasic.header_set "Accept" (Some "*/*") fresh).2 = "*/*".
Proof. apply (header_get_after_header_set "Accept" "ACCEPT" "*/*" fresh); done. Defined.

(** X20. [header_set] with [None] removes the header, under any
    spelling, and asks for no header to be there: [header_get] then
    gives the empty string, as for a name never set. *)
Theorem header_set_none_removes (key key' : string) (s : state) :
  Str.lower key' = Str.lower key →
  (HTTPBasic.header_set key None s).1 = Returned tt
  ∧ HTTPBasic.header_get key' (HTTPBasic.header_set key None s).2 = "".
Proof.
  intros Hlower. rewrite header_set_state. cbn [fst snd]. split; [reflexivity|].
  unfold HTTPBasic.header_get, CI.contains, CI.del. cbn [session_headers].
  rewrite Hlower, lookup_delete_eq. by rewrite andb_false_r.
Qed.

Lemma header_set_none_removes_witness :
  (HTTPBasic.header_set "Origin" None furnished).1 = Returned tt
  ∧ HTTPBasic.header_get "origin" (HTTPBasic.header_set "Origin" None furnished).2 = "".
Proof. apply (header_set_none_removes "Origin" "origin" furnished). reflexivity. Defined.

(** X21. Writing or removing one header leaves what [header_get] reads
    for every name that differs from it by more than case. *)
Theorem header_set_leaves_other_headers (key key' : string) (value : option string) (s : state) :
  Str.lower key' ≠ Str.lower key →
  HTTPBasic.header_get key' (HTTPBasic.header_set key value s).2 = HTTPBasic.header_get key' s.
Proof.
  intros Hlower. rewrite header_set_state. cbn [snd].
  unfold HTTPBasic.header_get, CI.contains, CI.get, CI.set, CI.del. cbn [session_headers].
  destruct value; [by rewrite lookup_insert_ne | by rewrite lookup_delete_ne].
Qed.

Lemma header_set_leaves_other_headers_witness :
  HTTPBasic.header_get "User-Agent" (HTTPBasic.header_set "Accept" None furnished).2
    = HTTPBasic.header_get "User-Agent" furnished.
Proof.
  apply (header_set_leaves_other_headers "Accept" "User-Agent" None furnished). discriminate.
Defined.

(** X22. A request with a [json] or a [data] keyword raises
    [AttributeError] before anything is sent, with or without [debug]:
    the methods that [_prepare_headers] calls for them do not exist,
    and [req] catches the exceptions of [requests] only. The session is
    as before. *)
Theorem request_with_body_keyword_raises
    (net : Network) (method url : string) (debug : bool) (kw : HTTPBasic.kwargs) (s : state) :
  HTTPBasic.kw_json kw = true ∨ HTTPBasic.kw_data kw = true →
  HTTPBasic.req net method url debug kw s = (Raised AttributeError, s).
Proof.
  intros Hbody. unfold HTTPBasic.req, bind, HTTPBasic._prepare_headers.
  destruct (HTTPBasic.kw_json kw); [reflexivity|].
  destruct Hbody as [?| ->]; [done|reflexivity].
Qed.

Lemma request_with_body_keyword_raises_witness :
  HTTPBasic.post all_is_well "u" false
    (HTTPBasic.mkKwargs true false (Some [("Accept", Some "*/*")])) furnished
    = (Raised AttributeError, furnished).
Proof.
  apply (request_with_body_keyword_raises all_is_well "POST" "u" false
           (HTTPBasic.mkKwargs true false (Some [("Accept", Some "*/*")])) furnished).
  by left.
Defined.

(** X23. Headers given to one request stay: a request whose [headers]
    keyword ends with a value for [key] goes out with that value under
    [key], answered or not, and so does the next request of the
    session, made without any keyword. *)
Theorem request_headers_stay_in_session
    (net : Network) (method url : string) (debug : bool)
    (items : list (string * option string)) (key v : string)
    (s : state) (o : outcome (option Response)) (s1 : state) (method' url' : string) :
  HTTPBasic.req net method url debug
    (HTTPBasic.mkKwargs false false (Some (items ++ [(key, Some v)]))) s = (o, s1) →
  ∃ rq rq',
    sent s1 = sent s ++ [rq]
    ∧ CI.get key (req_headers rq) = Some v
    ∧ sent (req net method' url' s1).2 = sent s1 ++ [rq']
    ∧ CI.get key (req_headers rq') = Some v.
Proof.
  unfold HTTPBasic.req, bind, HTTPBasic._prepare_headers.
  cbn [HTTPBasic.kw_json HTTPBasic.kw_data HTTPBasic.kw_headers].
  rewrite set_all_state. cbn [fs session_headers sent].
  assert (CI.get key (headers_after (items ++ [(key, Some v)]) (session_headers s)) = Some v)
    as Hget.
  { unfold headers_after. rewrite foldl_app. cbn [foldl fst snd].
    rewrite header_set_state. cbn [snd session_headers]. apply CI_get_set. }
  intros Hrun.
  assert (s1 = mkState (fs s) (headers_after (items ++ [(key, Some v)]) (session_headers s))
                 (sent s ++ [mkRequest method url
                               (headers_after (items ++ [(key, Some v)]) (session_headers s))]))
    as ->.
  { destruct (net _ _); [|destruct debug]; by injection Hrun as _ <-. }
  eexists _, _. cbn [sent session_headers req snd req_headers].
  split; [reflexivity|]. split; [exact Hget|]. split; [reflexivity|exact Hget].
Qed.

Lemma request_headers_stay_in_session_witness :
  ∃ rq rq',
    sent (HTTPBasic.get all_is_well "u" false
            (HTTPBasic.mkKwargs false false (Some ([] ++ [("Referer", Some "r")]))) fresh).2
      = sent fresh ++ [rq]
    ∧ CI.get "Referer" (req_headers rq) = Some "r"
    ∧ sent (req all_is_well "HEAD" "w"
              (HTTPBasic.get all_is_well "u" false
                 (HTTPBasic.mkKwargs false false (Some ([] ++ [("Referer", Some "r")])))
                 fresh).2).2
      = sent (HTTPBasic.get all_is_well "u" false
                (HTTPBasic.mkKwargs false false (Some ([] ++ [("Referer", Some "r")])))
                fresh).2 ++ [rq']
    ∧ CI.get "Referer" (req_headers rq') = Some "r".
Proof.
  apply (request_headers_stay_in_session all_is_well "GET" "u" false [] "Referer" "r" fresh
           (HTTPBasic.get all_is_well "u" false
              (HTTPBasic.mkKwargs false false (Some ([] ++ [("Referer", Some "r")]))) fresh).1).
  vm_compute. reflexivity.
Defined.

(** Without keywords and without [debug], [HTTPBasic.req] is the [req]
    that the downloader uses. *)
Lemma req_without_keywords (net : Network) (method url : string) (s : state) :
  HTTPBasic.req net method url false HTTPBasic.no_kwargs s = req net method url s.
Proof. unfold HTTPBasic.req, bind, req. cbn. by destruct (net _ _). Qed.

(** ** The files of [Debugger] *)

Lemma string_app_inv_head (a x y : string) : a +:+ x = a +:+ y → x = y.
Proof.
  induction a as [|c a IH]; [done|]. rewrite !string_app_cons. intros [= H]. by apply IH.
Qed.

Lemma fill_app (n : nat) (c : ascii) (s t : string) :
  Debugger.fill n c s +:+ t = Debugger.fill n c (s +:+ t).
Proof.
  induction n as [|n IH]; [reflexivity|]. cbn [Debugger.fill].
  by rewrite string_app_cons, IH.
Qed.

Lemma read_digits_fill_zero (n : nat) (s : string) :
  Origin.read_digits 0 (Debugger.fill n "0" s) = Origin.read_digits 0 s.
Proof. induction n as [|n IH]; [reflexivity|]. cbn [Debugger.fill]. exact IH. Qed.

(** The suffix of a debug file name, read as a number, is the index. *)
Lemma read_digits_suffix (i width : Z) (ext : string) :
  0 ≤ i →
  Origin.read_digits 0 (Debugger.rjust (pretty i) width "0" +:+ String "." ext)
    = (Z.to_N i, String "." ext).
Proof.
  intros Hi. unfold Debugger.rjust. rewrite fill_app, read_digits_fill_zero.
  rewrite pretty_N_nonneg by done. destruct (decide (i = 0)) as [->|Hne]; [reflexivity|].
  rewrite pretty_N_go_app, string_app_nil_l.
  destruct (read_digits_pretty_N_go (Z.to_N i) (String "." ext) 0) as [m ->].
  rewrite N.mul_0_l, N.add_0_l. reflexivity.
Qed.

Lemma joinpath_relative (dir : string) (c : ascii) (r : string) :
  c ≠ "/"%char → Debugger.joinpath dir (String c r) = dir +:+ "/" +:+ String c r.
Proof.
  intros Hc. unfold Debugger.joinpath.
  destruct c as [[] [] [] [] [] [] [] []]; try reflexivity. congruence.
Qed.

Lemma joinpath_absolute (dir r : string) :
  Debugger.joinpath dir (String "/" r) = String "/" r.
Proof. reflexivity. Qed.

(** Equal debug paths come from equal indexes. *)
Lemma gen_filepath_injective (d : Debugger.t) (i j : Z) (ext ext' : string) :
  Debugger._name d ≠ "" →
  0 ≤ i → 0 ≤ j →
  Debugger._gen_filepath (at_index d i) ext = Debugger._gen_filepath (at_index d j) ext' →
  i = j.
Proof.
  intros Hname Hi Hj. unfold Debugger._gen_filepath, Debugger.file_name, at_index.
  cbn [Debugger._name Debugger._dir Debugger._seperator Debugger._length Debugger._index].
  destruct (Debugger._name d) as [|c name] eqn:Hn; [done|].
  rewrite !string_app_cons.
  assert (∀ (k : Z) (e : string),
            name +:+ Debugger._seperator d
              +:+ Debugger.rjust (pretty k) (Debugger._length d) "0" +:+ "." +:+ e
            = name +:+ Debugger._seperator d
              +:+ (Debugger.rjust (pretty k) (Debugger._length d) "0" +:+ String "." e))
    as Hshape by reflexivity.
  intros Hpath.
  assert (name +:+ Debugger._seperator d
            +:+ (Debugger.rjust (pretty i) (Debugger._length d) "0" +:+ String "." ext)
          = name +:+ Debugger._seperator d
            +:+ (Debugger.rjust (pretty j) (Debugger._length d) "0" +:+ String "." ext'))
    as Hnames.
  { rewrite <- !Hshape. destruct (decide (c = "/"%char)) as [->|Hc].
    - rewrite !joinpath_absolute in Hpath.
      exact (f_equal (fun x => match x with String _ r => r | EmptyString => x end) Hpath).
    - rewrite !joinpath_relative in Hpath by done.
      apply string_app_inv_head in Hpath.
      exact (f_equal (fun x => match x with
                               | String _ (String _ r) => r
                               | _ => x
                               end) Hpath). }
  do 2 apply string_app_inv_head in Hnames.
  apply (f_equal (Origin.read_digits 0)) in Hnames.
  rewrite !read_digits_suffix in Hnames by done. injection Hnames as Hn' _. lia.
Qed.

(** X24. The path of a debug file tells its index: for a debugger with
    a name, as [__init__] demands, two paths it makes from indexes that
    are not negative are the same only for the same index, whatever the
    extensions. *)
Theorem debug_file_path_tells_index (d : Debugger.t) (i j : Z) (ext ext' : string) :
  Debugger._name d ≠ "" →
  0 ≤ i → 0 ≤ j →
  Debugger._gen_filepath (at_index d i) ext = Debugger._gen_filepath (at_index d j) ext' →
  i = j.
Proof. exact (gen_filepath_injective d i j ext ext'). Qed.

Lemma debug_file_path_tells_index_witness :
  Debugger._gen_filepath (at_index test_debugger 7) "txt" = "debug/HTTPClient-000007.txt"
  ∧ (7 = 7).
Proof.
  split; [reflexivity|].
  apply (debug_file_path_tells_index test_debugger 7 7 "txt" "txt"); try lia; [discriminate|].
  reflexivity.
Defined.


